(** * Stock analysis pipeline: fetch, recommend, regress

    A shallow embedding of [Final_Project_automatic.py] (and of its
    near-duplicate [Final_Project_automatic_v12.py], whose three pipeline
    functions are the same statement for statement).

    - Floating-point columns are IEEE 754 binary64 values, taken from the
      Standard Library's executable specification [SpecFloat].
    - A [DataFrame] of price rows is a list of rows; the frame the script
      keeps in the global [data] is a mutable object and lives in a heap.
    - Files, the console and the heap are threaded through a small
      state-and-exception monad [Py].
    - The two library routines whose results the script only passes on
      (numpy's [argsort] behind [sort_values], and the statsmodels OLS fit)
      are section variables. *)

From Stdlib Require Import ZArith List Bool Permutation Sorted Lia.
From Stdlib Require Import Floats.SpecFloat.
From stdpp Require Import base option gmap strings pretty.
Import ListNotations.

Local Open Scope Z_scope.
Local Open Scope string_scope.
Local Open Scope list_scope.

(** ** binary64 arithmetic *)

Module F64.

Definition prec : Z := 53.
Definition emax : Z := 1024.

Definition add := SFadd prec emax.
Definition sub := SFsub prec emax.
Definition mul := SFmul prec emax.
Definition div := SFdiv prec emax.
Definition sqrt := SFsqrt prec emax.

Definition of_Z (z : Z) : spec_float := binary_normalize prec emax z 0 false.
Definition of_nat (n : nat) : spec_float := of_Z (Z.of_nat n).

(** [m * 2^e], rounded to binary64. *)
Definition scaled (m e : Z) : spec_float := binary_normalize prec emax m e false.

Definition zero : spec_float := S754_zero false.
Definition nan : spec_float := S754_nan.

Definition is_nan (x : spec_float) : bool :=
  match x with S754_nan => true | _ => false end.

Definition is_zero (x : spec_float) : bool :=
  match x with S754_zero _ => true | _ => false end.

(** Neither NaN nor an infinity (numpy's [isfinite]). *)
Definition is_finite (x : spec_float) : bool :=
  match x with
  | S754_zero _ | S754_finite _ _ _ => true
  | S754_infinity _ | S754_nan => false
  end.

Definition eqb := SFeqb.
Definition ltb := SFltb.
Definition leb := SFleb.

End F64.

Abbreviation float := spec_float.

(** ** Data model *)

(** The [date] column: the API delivers a string, [pd.to_datetime] turns the
    column into timestamps. Both carry the instant they denote. *)
Inductive DateCell :=
| DateStr (instant : Z)
| Timestamp (instant : Z).

Definition instant_of (d : DateCell) : Z :=
  match d with DateStr t => t | Timestamp t => t end.

(** One element of the [data] array of an API response. [r_others] holds the
    numeric fields the script never names (open, high, low, ...); a missing
    number is NaN, as in pandas. *)
Record PriceRecord := {
  r_symbol : string;
  r_date : Z;
  r_adj_open : float;
  r_adj_close : float;
  r_dividend : float;
  r_volume : float;
  r_others : list float
}.

(** One row of the price frame. [percent_change] is [None] while the frame
    has no such column. *)
Record Row := {
  symbol : string;
  date : DateCell;
  adj_open : float;
  adj_close : float;
  dividend : float;
  volume : float;
  others : list float;
  percent_change : option float
}.

(** [pd.DataFrame(data['data'])] *)
Definition row_of_record (r : PriceRecord) : Row :=
  {| symbol := r_symbol r; date := DateStr (r_date r);
     adj_open := r_adj_open r; adj_close := r_adj_close r;
     dividend := r_dividend r; volume := r_volume r;
     others := r_others r; percent_change := None |}.

Definition DataFrame_of_records (rs : list PriceRecord) : list Row :=
  List.map row_of_record rs.

(** [df.empty] *)
Definition empty {A : Type} (df : list A) : bool :=
  match df with [] => true | _ => false end.

(** Rows of the performance table built by [analyze_and_recommend]. *)
Record PerfRow := {
  p_symbol : string;
  avg_percent_change : float;
  volatility : float;
  last_closing_price : float;
  avg_dividend : float;
  score : float
}.

(** Rows of the regression metrics table built by [perform_regression]. *)
Record RegRow := {
  g_symbol : string;
  variable : string;
  coef : float;
  std_err : float;
  t_value : float;
  p_value : float;
  ci_low : float;
  ci_high : float;
  g_score : float
}.

(** What [to_csv] leaves in a file. *)
Inductive Csv :=
| CsvPrices (rows : list Row)
| CsvPerformance (rows : list PerfRow)
| CsvRegression (rows : list RegRow).

(** ** The outside world *)

(** The body of a response as far as the script looks at it. *)
Inductive Json :=
| JNoDataKey
| JData (records : list PriceRecord).

(** What [requests.get] does for one symbol: it raises, or it returns a
    response whose [json()] raises ([None]) or decodes. *)
Inductive HttpResult :=
| TransportError (msg : string)
| Response (status_code : Z) (body : option Json).

Inductive Exn := Exception (msg : string).

Definition exn_text (e : Exn) : string :=
  match e with Exception msg => msg end.

Record World := {
  net : string -> HttpResult;
  files : gmap string Csv;
  stdout : list string;
  heap : gmap nat (list Row)
}.

(** ** The [Py] monad: state, exceptions, [exit()] *)

Inductive Outcome (A : Type) :=
| Returned (a : A)
| Raised (e : Exn)
| Exited.
Arguments Returned {A} a.
Arguments Raised {A} e.
Arguments Exited {A}.

Definition Py (A : Type) : Type := World -> Outcome A * World.

Definition ret {A} (a : A) : Py A := fun w => (Returned a, w).

Definition bind {A B} (m : Py A) (k : A -> Py B) : Py B :=
  fun w =>
    match m w with
    | (Returned a, w') => k a w'
    | (Raised e, w') => (Raised e, w')
    | (Exited, w') => (Exited, w')
    end.

Declare Scope py_scope.
Delimit Scope py_scope with py.
Notation "x <- m ;; k" := (bind m (fun x => k))
  (at level 100, m at next level, right associativity) : py_scope.
Notation "m ;; k" := (bind m (fun _ => k))
  (at level 100, right associativity) : py_scope.
Local Open Scope py_scope.

Definition raise {A} (e : Exn) : Py A := fun w => (Raised e, w).

(** [exit()] *)
Definition sys_exit {A} : Py A := fun w => (Exited, w).

(** [try: body  except Exception as e: handler e]. [exit()] is not an
    [Exception] and passes through. *)
Definition try_except {A} (body : Py A) (handler : Exn -> Py A) : Py A :=
  fun w =>
    match body w with
    | (Raised e, w') => handler e w'
    | r => r
    end.

Definition set_stdout (w : World) (out : list string) : World :=
  {| net := net w; files := files w; stdout := out; heap := heap w |}.

Definition set_files (w : World) (fs : gmap string Csv) : World :=
  {| net := net w; files := fs; stdout := stdout w; heap := heap w |}.

Definition set_heap (w : World) (h : gmap nat (list Row)) : World :=
  {| net := net w; files := files w; stdout := stdout w; heap := h |}.

Definition print (line : string) : Py unit :=
  fun w => (Returned tt, set_stdout w (stdout w ++ [line])).

(** [df.to_csv(name, index=False)] *)
Definition to_csv (name : string) (content : Csv) : Py unit :=
  fun w => (Returned tt, set_files w (<[name := content]> (files w))).

(** A new frame object; the result is the reference to it. *)
Definition new_frame (df : list Row) : Py nat :=
  fun w => let l := fresh (dom (heap w)) in
           (Returned l, set_heap w (<[l := df]> (heap w))).

Definition read_frame (l : nat) : Py (list Row) :=
  fun w => match heap w !! l with
           | Some df => (Returned df, w)
           | None => (Raised (Exception "NameError"), w)
           end.

(** In-place update of the frame object at [l]. *)
Definition update_frame (l : nat) (f : list Row -> list Row) : Py unit :=
  fun w => match heap w !! l with
           | Some df => (Returned tt, set_heap w (<[l := f df]> (heap w)))
           | None => (Raised (Exception "NameError"), w)
           end.

(** [requests.get(base_url, params=...)] for one symbol. *)
Definition requests_get (sym : string) : Py (Z * option Json) :=
  fun w => match net w sym with
           | TransportError msg => (Raised (Exception msg), w)
           | Response code body => (Returned (code, body), w)
           end.

(** [response.json()] *)
Definition response_json (body : option Json) : Py Json :=
  match body with
  | Some j => ret j
  | None => raise (Exception "JSONDecodeError")
  end.

(** ** The Fetcher *)

Definition raw_csv : string := "last_60_days_prices.csv".

(** The body of the [try] block for one symbol: the frames collected so far
    go in, and come out with this symbol's frame appended when the request
    gave data. *)
Definition fetch_symbol (sym : string) (all_data : list (list Row))
  : Py (list (list Row)) :=
  response <- requests_get sym ;;
  let '(status_code, body) := response in
  if (status_code =? 200)%Z then
    data <- response_json body ;;
    match data with
    | JData (r :: rs) =>
        ret (all_data ++ [DataFrame_of_records (r :: rs)])
    | _ =>
        print ("No data found for symbol: " +:+ sym) ;;
        ret all_data
    end
  else
    print ("Error fetching data for " +:+ sym +:+ ": " +:+ pretty status_code) ;;
    ret all_data.

(** The [for] loop. The pause of two seconds after each request has no
    counterpart here. *)
Fixpoint fetch_loop (symbols : list string) (all_data : list (list Row))
  : Py (list (list Row)) :=
  match symbols with
  | [] => ret all_data
  | sym :: rest =>
      print ("Fetching data for symbol: " +:+ sym) ;;
      all_data' <- try_except (fetch_symbol sym all_data)
        (fun e =>
           print ("Exception occurred while fetching data for " +:+ sym
                  +:+ ": " +:+ exn_text e) ;;
           ret all_data) ;;
      fetch_loop rest all_data'
  end.

(** [pd.concat(frames, ignore_index=True)] *)
Definition pd_concat {A} (frames : list (list A)) : list A := List.concat frames.

Definition fetch_last_60_days_prices (symbols : list string) : Py nat :=
  all_data <- fetch_loop symbols [] ;;
  if negb (empty all_data) then
    let non_empty_data := List.filter (fun df => negb (empty df)) all_data in
    let raw_data :=
      if negb (empty non_empty_data) then pd_concat non_empty_data else [] in
    data <- new_frame raw_data ;;
    to_csv raw_csv (CsvPrices raw_data) ;;
    print "Raw API data saved to last_60_days_prices.csv" ;;
    ret data
  else
    print "No data processed." ;;
    new_frame [].

(** ** pandas and numpy routines used by the Recommender and the Regressor *)

(** [pd.to_datetime] applied to the [date] column. *)
Definition to_datetime (df : list Row) : list Row :=
  List.map (fun r =>
    {| symbol := symbol r; date := Timestamp (instant_of (date r));
       adj_open := adj_open r; adj_close := adj_close r;
       dividend := dividend r; volume := volume r;
       others := others r; percent_change := percent_change r |}) df.

(** Insertion sort, stable for a reflexive [leb]: an element is put in
    front of the first one it is not above. *)
Section InsertionSort.
Context {A : Type} (leb : A -> A -> bool).

Fixpoint insert_sorted (x : A) (l : list A) : list A :=
  match l with
  | [] => [x]
  | y :: l' => if leb x y then x :: l else y :: insert_sorted x l'
  end.

Fixpoint insertion_sort (l : list A) : list A :=
  match l with
  | [] => []
  | x :: l' => insert_sorted x (insertion_sort l')
  end.
End InsertionSort.

Definition string_leb (s1 s2 : string) : bool :=
  match String.compare s1 s2 with Gt => false | _ => true end.

(** Order of the sort keys [['symbol', 'date']]. *)
Definition symbol_date_leb (r1 r2 : Row) : bool :=
  match String.compare (symbol r1) (symbol r2) with
  | Lt => true
  | Gt => false
  | Eq => (instant_of (date r1) <=? instant_of (date r2))%Z
  end.

(** [df.sort_values(by=['symbol', 'date'])]: pandas sorts on several keys
    with a stable lexicographic sort. *)
Definition sort_by_symbol_date (df : list Row) : list Row :=
  insertion_sort symbol_date_leb df.

Definition hundred : float := F64.of_Z 100.

(** [((adj_close - adj_open) / adj_open) * 100] for one row. *)
Definition pct_change (r : Row) : float :=
  F64.mul (F64.div (F64.sub (adj_close r) (adj_open r)) (adj_open r)) hundred.

Definition add_percent_change (df : list Row) : list Row :=
  List.map (fun r =>
    {| symbol := symbol r; date := date r;
       adj_open := adj_open r; adj_close := adj_close r;
       dividend := dividend r; volume := volume r;
       others := others r; percent_change := Some (pct_change r) |}) df.

(** The values of the [percent_change] column; a frame without the column
    has none to give. *)
Definition percent_changes (rows : list Row) : list float :=
  List.map (fun r => default F64.nan (percent_change r)) rows.

Definition not_nan (x : float) : bool := negb (F64.is_nan x).

Definition fsum (xs : list float) : float := fold_left F64.add xs F64.zero.

(** ['mean']: NaN entries are skipped; no entry left gives 0/0. The sum
    is taken left to right; the library's own summation may round the last
    digit differently. *)
Definition mean (col : list float) : float :=
  let xs := List.filter not_nan col in
  F64.div (fsum xs) (F64.of_nat (length xs)).

(** ['std']: sample standard deviation (one degree of freedom taken off)
    of the entries that are not NaN; NaN when fewer than two are left.
    Computed from the squared distances to the mean; again the library may
    round differently. *)
Definition std (col : list float) : float :=
  let xs := List.filter not_nan col in
  match xs with
  | [] | [_] => F64.nan
  | _ =>
      let m := F64.div (fsum xs) (F64.of_nat (length xs)) in
      let sq := List.map (fun x => F64.mul (F64.sub x m) (F64.sub x m)) xs in
      F64.sqrt (F64.div (fsum sq) (F64.of_nat (length xs - 1)))
  end.

(** ['last']: the last entry that is not NaN. *)
Definition last_valid (col : list float) : float :=
  List.last (List.filter not_nan col) F64.nan.

(** [unique()]: distinct values in order of first appearance. *)
Fixpoint unique (l : list string) : list string :=
  match l with
  | [] => []
  | x :: l' => x :: List.filter (fun y => negb (String.eqb x y)) (unique l')
  end.

Definition rows_of_symbol (df : list Row) (s : string) : list Row :=
  List.filter (fun r => String.eqb (symbol r) s) df.

(** [groupby('symbol')]: one group per distinct symbol, groups in
    ascending key order, rows of a group in frame order. *)
Definition groupby_symbol (df : list Row) : list (string * list Row) :=
  List.map (fun s => (s, rows_of_symbol df s))
           (insertion_sort string_leb (unique (List.map symbol df))).

(** The four named aggregations and [reset_index], then the [score]
    column. *)
Definition performance_row (g : string * list Row) : PerfRow :=
  let avg := mean (percent_changes (snd g)) in
  let vol := std (percent_changes (snd g)) in
  {| p_symbol := fst g;
     avg_percent_change := avg;
     volatility := vol;
     last_closing_price := last_valid (List.map adj_close (snd g));
     avg_dividend := mean (List.map dividend (snd g));
     score := F64.div avg vol |}.

Definition performance_table (df : list Row) : list PerfRow :=
  List.map performance_row (groupby_symbol df).

(** *** [sort_values(by=score, ascending=False)]

    pandas sorts one column through [nargsort]: the NaN keys are set aside,
    the others are reversed and handed to numpy's [argsort], the order that
    comes back is reversed again, and the positions of the NaN keys are
    appended. *)

(** The positions of the keys that are not NaN, in table order. *)
Definition non_nan_positions (items : list float) : list nat :=
  List.filter (fun i => negb (F64.is_nan (nth i items F64.nan)))
              (seq 0 (length items)).

(** The positions of the NaN keys, in table order. *)
Definition nan_positions (items : list float) : list nat :=
  List.filter (fun i => F64.is_nan (nth i items F64.nan))
              (seq 0 (length items)).

(** The array [nargsort] hands to [argsort] when [ascending=False]. *)
Definition reversed_non_nans (items : list float) : list float :=
  rev (List.map (fun i => nth i items F64.nan) (non_nan_positions items)).

(** The script does not pass [kind], so the numpy routine is the default
    quicksort. It is the variable [argsort]: given an array it returns the
    positions of the array in sorted order. *)
Section SortValues.
Variable argsort : list float -> list nat.

Definition nargsort_descending (items : list float) : list nat :=
  let non_nan_idx := rev (non_nan_positions items) in
  let non_nans := reversed_non_nans items in
  let indexer := List.map (fun k => nth k non_nan_idx O) (argsort non_nans) in
  let indexer := rev indexer in
  indexer ++ nan_positions items.

(** [df.take(indexer)] *)
Definition take_rows {A} (df : list A) (indexer : list nat) : list A :=
  omap (fun i => df !! i) indexer.

Definition sort_values_descending {A} (key : A -> float) (df : list A)
  : list A :=
  take_rows df (nargsort_descending (List.map key df)).

(** [.head(5)] *)
Definition head5 {A} (df : list A) : list A := firstn 5 df.
End SortValues.

(** What numpy promises of [argsort] on an array [l] without NaN: the
    result [p] lists each position of [l] once, and reading [l] along [p]
    never goes down. Nothing is promised about equal entries. *)
Fixpoint no_dupb (p : list nat) : bool :=
  match p with
  | [] => true
  | i :: p' => negb (existsb (Nat.eqb i) p') && no_dupb p'
  end.

Fixpoint ascendingb (l : list float) : bool :=
  match l with
  | [] => true
  | x :: l' => forallb (F64.leb x) l' && ascendingb l'
  end.

Definition argsort_ok (l : list float) (p : list nat) : bool :=
  Nat.eqb (length p) (length l)
  && forallb (fun i => Nat.ltb i (length l)) p
  && no_dupb p
  && ascendingb (List.map (fun i => nth i l F64.nan) p).

(** Two sorts that keep the promise on the inputs below. The first is
    stable; the second puts an entry behind the entries equal to it. *)
Definition positions_sorted (above : float -> float -> bool) (l : list float)
  : list nat :=
  List.map fst
    (insertion_sort (fun a b => above (snd a) (snd b))
                    (combine (seq 0 (length l)) l)).

Definition stable_argsort : list float -> list nat := positions_sorted F64.leb.

(** ** The Recommender *)

Definition top5_csv : string := "top_5_recommendations.csv".

Section Recommender.
Variable argsort : list float -> list nat.

Definition analyze_and_recommend (data : nat)
  : Py (list PerfRow * list PerfRow) :=
  df <- read_frame data ;;
  if empty df then
    print "No data available for analysis." ;;
    ret ([], [])
  else
    update_frame data to_datetime ;;
    update_frame data sort_by_symbol_date ;;
    update_frame data add_percent_change ;;
    df <- read_frame data ;;
    let performance := performance_table df in
    let top_5_stocks :=
      head5 (sort_values_descending argsort score performance) in
    to_csv top5_csv (CsvPerformance top_5_stocks) ;;
    print "Top 5 recommendations saved to top_5_recommendations.csv" ;;
    ret (performance, top_5_stocks).
End Recommender.

(** ** The Regressor *)

(** [dropna()]: a row stays when none of its entries is missing. *)
Definition complete (r : Row) : bool :=
  not_nan (adj_open r) && not_nan (adj_close r) && not_nan (dividend r)
  && not_nan (volume r) && forallb not_nan (others r)
  && match percent_change r with Some x => not_nan x | None => true end.

Definition dropna (df : list Row) : list Row := List.filter complete df.

Definition np_max (xs : list float) : float :=
  match xs with
  | [] => F64.nan
  | x :: xs' =>
      fold_left (fun a b => if F64.is_nan a || F64.is_nan b then F64.nan
                            else if F64.ltb a b then b else a) xs' x
  end.

Definition np_min (xs : list float) : float :=
  match xs with
  | [] => F64.nan
  | x :: xs' =>
      fold_left (fun a b => if F64.is_nan a || F64.is_nan b then F64.nan
                            else if F64.ltb b a then b else a) xs' x
  end.

(** statsmodels' test for a column that already is a constant:
    [np.ptp(s) == 0.0 and np.any(s != 0.0)]. *)
Definition is_constant_column (s : list float) : bool :=
  F64.eqb (F64.sub (np_max s) (np_min s)) F64.zero
  && existsb (fun x => negb (F64.eqb x F64.zero)) s.

Definition one : float := F64.of_Z 1.

(** [sm.add_constant(X)] on a frame of named columns. Its parameter
    [has_constant] is left at ['skip']: when some column of [X] already is a
    non-zero constant, [X] comes back as it is; otherwise a column [const]
    of ones is put in front. *)
Definition add_constant (X : list (string * list float))
  : list (string * list float) :=
  if existsb (fun c => is_constant_column (snd c)) X then X
  else
    let nobs := match X with [] => O | c :: _ => length (snd c) end in
    ("const", repeat one nobs) :: X.

(** The statistics statsmodels reports for one coefficient. *)
Record CoefStats := {
  c_coef : float;
  c_std_err : float;
  c_t : float;
  c_p : float;
  c_low : float;
  c_high : float
}.

Definition SYMBOLS : list string :=
  ["NKE"; "AAPL"; "AMZN"; "AXP"; "BA"; "CSCO"; "IBM"; "JPM"; "MSFT";
   "V"; "MA"; "NVDA"; "TSLA"; "VZ"; "NFLX"; "CRM"; "PG"; "UNH"; "WMT";
   "GS"; "DJI.INDX"].

Definition metrics_csv : string := "stock_regression_metrics.csv".
Definition top_regression_csv : string := "top_5_stocks_regression.csv".

Section Regressor.
Variable argsort : list float -> list nat.

(** [sm.OLS(y, X).fit()]: the fitted model gives [params], [bse],
    [tvalues], [pvalues] and [conf_int()] with one entry per column of
    [X], labelled with the column's name, and [rsquared_adj]. Here the
    entry for column number [k]. *)
Variable OLS_coef : list (string * list float) -> list float -> nat -> CoefStats.
Variable OLS_rsquared_adj : list (string * list float) -> list float -> float.

(** The design matrix and the response handed to [sm.OLS] for the rows
    of one symbol. *)
Definition design (symbol_data : list Row) : list (string * list float) :=
  add_constant [("adj_open", List.map adj_open symbol_data)].

Definition response (symbol_data : list Row) : list float :=
  List.map adj_close symbol_data.

(** The frame [stock_results] of one pass through the loop. *)
Definition stock_results (sym : string) (symbol_data : list Row)
  : list RegRow :=
  let X := design symbol_data in
  let y := response symbol_data in
  let performance_score := OLS_rsquared_adj X y in
  imap (fun k name =>
          let c := OLS_coef X y k in
          {| g_symbol := sym; variable := name;
             coef := c_coef c; std_err := c_std_err c;
             t_value := c_t c; p_value := c_p c;
             ci_low := c_low c; ci_high := c_high c;
             g_score := performance_score |})
       (List.map fst X).

(** The symbols the loop goes over. *)
Definition stock_symbols (df : list Row) : list string :=
  unique (List.map symbol (dropna df)).

Definition regression_loop (stock_data_cleaned : list Row)
  : list string -> list RegRow -> list RegRow :=
  fix loop (symbols : list string) (stock_metrics : list RegRow) :=
    match symbols with
    | [] => stock_metrics
    | sym :: rest =>
        let symbol_data := rows_of_symbol stock_data_cleaned sym in
        loop rest (pd_concat [stock_metrics; stock_results sym symbol_data])
    end.

Definition regression_metrics (df : list Row) : list RegRow :=
  regression_loop (dropna df) (stock_symbols df) [].

Definition is_const_row (r : RegRow) : bool := String.eqb (variable r) "const".

Definition top_regression (stock_metrics : list RegRow) : list RegRow :=
  head5 (sort_values_descending argsort g_score
           (List.filter is_const_row stock_metrics)).

Definition perform_regression (data : nat) : Py (list RegRow * list RegRow) :=
  df <- read_frame data ;;
  let stock_metrics := regression_metrics df in
  to_csv metrics_csv (CsvRegression stock_metrics) ;;
  print "Regression metrics saved to stock_regression_metrics.csv" ;;
  let top_stocks := top_regression stock_metrics in
  to_csv top_regression_csv (CsvRegression top_stocks) ;;
  print "Top 5 stocks by regression saved to top_5_stocks_regression.csv" ;;
  ret (stock_metrics, top_stocks).

(** ** The script *)

(** The module-level statements from the fetch to the two analyses, for a
    given symbol list. The result is the reference held by the global
    [data] together with the four tables. *)
Definition script (symbols : list string)
  : Py (nat * (list PerfRow * list PerfRow) * (list RegRow * list RegRow)) :=
  data <- fetch_last_60_days_prices symbols ;;
  df <- read_frame data ;;
  if empty df then
    print "No data available from API. Exiting..." ;;
    sys_exit
  else
    update_frame data to_datetime ;;
    recommended <- analyze_and_recommend argsort data ;;
    regressed <- perform_regression data ;;
    ret (data, recommended, regressed).

(** [update_dashboard]: the rows of the shared frame the callback draws
    from. *)
Definition update_dashboard (data : nat) (selected_symbol : string)
  : Py (list Row) :=
  df <- read_frame data ;;
  ret (rows_of_symbol df selected_symbol).
End Regressor.

(** ** Notions used in the statements *)

(** The records a response contributes: those of a 200 response whose body
    decodes and has a [data] array. *)
Definition delivered (h : HttpResult) : list PriceRecord :=
  match h with
  | Response code (Some (JData rs)) => if (code =? 200)%Z then rs else []
  | _ => []
  end.

Definition gives_data (h : HttpResult) : bool := negb (empty (delivered h)).

Definition frame_of (h : HttpResult) : list (list Row) :=
  match delivered h with
  | [] => []
  | rs => [DataFrame_of_records rs]
  end.

(** Reading a row back as an API record. *)
Definition record_of_row (r : Row) : PriceRecord :=
  {| r_symbol := symbol r; r_date := instant_of (date r);
     r_adj_open := adj_open r; r_adj_close := adj_close r;
     r_dividend := dividend r; r_volume := volume r;
     r_others := others r |}.

(** The combined table the Fetcher builds from the responses. *)
Definition combined_dataset (nt : string -> HttpResult) (symbols : list string)
  : list Row :=
  pd_concat (List.map (fun s => DataFrame_of_records (delivered (nt s))) symbols).

(** The frame the Recommender leaves in place of its input. *)
Definition analyzed_frame (df : list Row) : list Row :=
  add_percent_change (sort_by_symbol_date (to_datetime df)).



(** [argsort] keeps its promise on the array [nargsort] hands it when the
    column to sort holds [keys]. *)
Definition argsort_sorts (argsort : list float -> list nat) (keys : list float)
  : Prop :=
  argsort_ok (reversed_non_nans keys) (argsort (reversed_non_nans keys)) = true.


(** ** Sample inputs *)

Definition day (sym : string) (d : Z) (adj_open adj_close : float)
  : PriceRecord :=
  {| r_symbol := sym; r_date := d;
     r_adj_open := adj_open; r_adj_close := adj_close;
     r_dividend := F64.zero; r_volume := F64.of_Z 1000; r_others := [] |}.

(** Five days on which BBB closes where it opened. *)
Definition flat_days : list Row :=
  DataFrame_of_records
    [day "BBB" 1 (F64.of_Z 50) (F64.of_Z 50); day "BBB" 2 (F64.of_Z 50) (F64.of_Z 50);
     day "BBB" 3 (F64.of_Z 50) (F64.of_Z 50); day "BBB" 4 (F64.of_Z 50) (F64.of_Z 50);
     day "BBB" 5 (F64.of_Z 50) (F64.of_Z 50)].

(** Two days of AAA with an open of 2^-1000 and closes of 163840 and
    81920: the percent changes are finite, their sum is not. *)
Definition overflow_days : list Row :=
  DataFrame_of_records
    [day "AAA" 1 (F64.scaled 1 (-1000)) (F64.scaled 5 15);
     day "AAA" 2 (F64.scaled 1 (-1000)) (F64.scaled 5 14)].

(** AAA and BBB with the same prices on the same two days. *)
Definition twin_symbols : list Row :=
  DataFrame_of_records
    [day "AAA" 1 (F64.of_Z 100) (F64.of_Z 102); day "AAA" 2 (F64.of_Z 102) (F64.of_Z 105);
     day "BBB" 1 (F64.of_Z 100) (F64.of_Z 102); day "BBB" 2 (F64.of_Z 102) (F64.of_Z 105)].

(** One day of AAA and three of BBB. *)
Definition one_day_symbol : list Row :=
  DataFrame_of_records
    [day "AAA" 1 (F64.of_Z 100) (F64.of_Z 102);
     day "BBB" 1 (F64.of_Z 100) (F64.of_Z 102); day "BBB" 2 (F64.of_Z 102) (F64.of_Z 105);
     day "BBB" 3 (F64.of_Z 105) (F64.of_Z 103)].

(** A network on which AAA times out, BBB is not found and every other
    symbol has an empty [data] array. *)
Definition silent_net (sym : string) : HttpResult :=
  if String.eqb sym "AAA" then TransportError "timed out"
  else if String.eqb sym "BBB" then Response 404 None
  else Response 200 (Some (JData [])).

(** A world without files or output whose heap holds [df] at reference 0. *)
Definition world_with (df : list Row) : World :=
  {| net := silent_net; files := ∅; stdout := []; heap := {[ O := df ]} |}.

(** Some fit results, to have the library's OLS at hand on the sample
    inputs; the theorems hold whatever the fit reports. *)
Definition sample_coef (X : list (string * list float)) (y : list float)
  (k : nat) : CoefStats :=
  {| c_coef := F64.of_nat k; c_std_err := F64.nan; c_t := F64.nan;
     c_p := F64.nan; c_low := F64.nan; c_high := F64.nan |}.

Definition sample_rsquared_adj (X : list (string * list float))
  (y : list float) : float :=
  F64.div (F64.of_nat (length y)) (F64.of_Z 4).

(** The three samples in one frame, and the world the witnesses run in. *)
Definition sample_days : list Row := twin_symbols ++ flat_days ++ one_day_symbol.

(** A world in which nothing has been fetched or written yet. *)
Definition fresh_world : World :=
  {| net := silent_net; files := ∅; stdout := []; heap := ∅ |}.

(** ** The dashboard's dropdown *)


(** A number other than zero, an infinity or NaN. *)
Definition finite_nonzero (x : float) : bool :=
  F64.is_finite x && negb (F64.is_zero x).

(** A network on which AAA and BBB have two days each, CCC times out and
    every other symbol is answered with status 500. *)
Definition sample_net (sym : string) : HttpResult :=
  if String.eqb sym "AAA" then
    Response 200 (Some (JData [day "AAA" 2 (F64.of_Z 102) (F64.of_Z 105);
                                day "AAA" 1 (F64.of_Z 100) (F64.of_Z 102)]))
  else if String.eqb sym "BBB" then
    Response 200 (Some (JData [day "BBB" 1 (F64.of_Z 50) (F64.of_Z 51);
                                day "BBB" 2 (F64.of_Z 51) (F64.of_Z 50)]))
  else if String.eqb sym "CCC" then TransportError "timed out"
  else Response 500 None.

Definition live_world : World :=
  {| net := sample_net; files := ∅; stdout := []; heap := ∅ |}.

(** Two days on which ZZZ is quoted at zero, next to two days of AAA. *)
Definition zero_priced_days : list Row :=
  DataFrame_of_records
    [day "ZZZ" 1 F64.zero F64.zero; day "ZZZ" 2 F64.zero F64.zero;
     day "AAA" 1 (F64.of_Z 100) (F64.of_Z 102); day "AAA" 2 (F64.of_Z 102) (F64.of_Z 105)].
(** * Properties *)

(** ** The Fetcher *)

Lemma set_stdout_twice w a b : set_stdout (set_stdout w a) b = set_stdout w b.
Proof. reflexivity. Qed.

Lemma fetch_symbol_handled sym acc w :
  exists lines,
    try_except (fetch_symbol sym acc)
      (fun e =>
         print ("Exception occurred while fetching data for " +:+ sym
                +:+ ": " +:+ exn_text e) ;;
         ret acc) w
    = (Returned (acc ++ frame_of (net w sym)), set_stdout w (stdout w ++ lines)).
Proof.
  unfold try_except, fetch_symbol, bind, requests_get, frame_of, delivered.
  destruct (net w sym) as [msg | code body] eqn:Hnet.
  - eexists. cbn. rewrite app_nil_r. reflexivity.
  - destruct (code =? 200)%Z eqn:Hcode.
    + destruct body as [[ | [ | r rs]] | ]; cbn.
      * eexists. rewrite app_nil_r. reflexivity.
      * eexists. rewrite app_nil_r. reflexivity.
      * exists []. rewrite app_nil_r. destruct w; reflexivity.
      * eexists. rewrite app_nil_r. reflexivity.
    + destruct body as [[ | rs] | ]; cbn; eexists; rewrite app_nil_r; reflexivity.
Qed.

Lemma fetch_loop_spec symbols : forall acc w,
  exists lines,
    fetch_loop symbols acc w
    = (Returned (acc ++ flat_map (fun s => frame_of (net w s)) symbols),
       set_stdout w (stdout w ++ lines)).
Proof.
  induction symbols as [ | sym rest IH]; intros acc w.
  - exists []. cbn. rewrite !app_nil_r. destruct w; reflexivity.
  - cbn [fetch_loop]. unfold bind at 1. cbn [print].
    unfold bind at 1.
    destruct (fetch_symbol_handled sym acc
                (set_stdout w (stdout w ++ ["Fetching data for symbol: " +:+ sym])))
      as [l1 H1].
    rewrite H1.
    match goal with
    | |- context [fetch_loop rest ?a ?w1] => destruct (IH a w1) as [l2 H2]
    end.
    rewrite H2.
    exists (("Fetching data for symbol: " +:+ sym) :: l1 ++ l2).
    unfold set_stdout. cbn [net files stdout heap flat_map].
    rewrite <- !app_assoc. reflexivity.
Qed.

Lemma frame_of_nonempty h : Forall (fun df => empty df = false) (frame_of h).
Proof.
  unfold frame_of. destruct (delivered h) as [ | r rs]; constructor; auto.
Qed.

Lemma filter_all {A} (f : A -> bool) (l : list A) :
  Forall (fun x => f x = true) l -> List.filter f l = l.
Proof.
  induction 1 as [ | x l Hx _ IH]; cbn; [reflexivity | ].
  rewrite Hx, IH. reflexivity.
Qed.

Lemma fetched_frames_nonempty (nt : string -> HttpResult) symbols :
  List.filter (fun df => negb (empty df))
    (flat_map (fun s => frame_of (nt s)) symbols)
  = flat_map (fun s => frame_of (nt s)) symbols.
Proof.
  apply filter_all.
  induction symbols as [ | s rest IH]; cbn; [constructor | ].
  apply Forall_app. split; [ | exact IH].
  eapply List.Forall_impl; [ | apply frame_of_nonempty].
  cbn. intros df ->. reflexivity.
Qed.

Lemma concat_frames (nt : string -> HttpResult) symbols :
  pd_concat (flat_map (fun s => frame_of (nt s)) symbols)
  = pd_concat (List.map (fun s => DataFrame_of_records (delivered (nt s))) symbols).
Proof.
  unfold pd_concat. induction symbols as [ | s rest IH]; cbn; [reflexivity | ].
  rewrite concat_app, IH. unfold frame_of.
  destruct (delivered (nt s)); cbn; rewrite ?app_nil_r; reflexivity.
Qed.

Lemma fetched_frames_empty (nt : string -> HttpResult) symbols :
  empty (flat_map (fun s => frame_of (nt s)) symbols)
  = negb (existsb (fun s => gives_data (nt s)) symbols).
Proof.
  induction symbols as [ | s rest IH]; cbn; [reflexivity | ].
  unfold gives_data, frame_of at 1.
  destruct (delivered (nt s)); cbn; [exact IH | reflexivity].
Qed.

Lemma combined_dataset_no_data nt symbols :
  existsb (fun s => gives_data (nt s)) symbols = false ->
  combined_dataset nt symbols = [].
Proof.
  unfold combined_dataset, pd_concat.
  induction symbols as [ | s rest IH]; cbn; [reflexivity | ].
  intros [H1 H2]%orb_false_elim. rewrite (IH H2), app_nil_r.
  unfold gives_data in H1. destruct (delivered (nt s)); [reflexivity | discriminate].
Qed.

(** What a run of the Fetcher returns and leaves behind. *)
Lemma fetch_spec symbols w :
  exists lines,
    fetch_last_60_days_prices symbols w
    = (Returned (fresh (dom (heap w))),
       {| net := net w;
          files := if existsb (fun s => gives_data (net w s)) symbols
                   then <[raw_csv := CsvPrices (combined_dataset (net w) symbols)]> (files w)
                   else files w;
          stdout := stdout w ++ lines;
          heap := <[fresh (dom (heap w)) := combined_dataset (net w) symbols]> (heap w) |}).
Proof.
  unfold fetch_last_60_days_prices. unfold bind at 1.
  destruct (fetch_loop_spec symbols [] w) as [l1 H1]. rewrite H1.
  cbn [app]. rewrite fetched_frames_nonempty, fetched_frames_empty, negb_involutive.
  destruct (existsb (fun s => gives_data (net w s)) symbols) eqn:Hany.
  - rewrite concat_frames. fold (combined_dataset (net w) symbols).
    eexists (l1 ++ [_]). cbn. rewrite <- app_assoc. reflexivity.
  - rewrite (combined_dataset_no_data _ _ Hany).
    eexists (l1 ++ [_]). cbn. rewrite <- app_assoc. reflexivity.
Qed.

(** ** The Recommender *)

Lemma analyze_empty argsort w d :
  heap w !! d = Some [] ->
  analyze_and_recommend argsort d w
  = (Returned ([], []),
     set_stdout w (stdout w ++ ["No data available for analysis."])).
Proof.
  intros H. unfold analyze_and_recommend, bind, read_frame. rewrite H.
  reflexivity.
Qed.

Lemma analyze_nonempty argsort w d df :
  heap w !! d = Some df -> empty df = false ->
  let performance := performance_table (analyzed_frame df) in
  let top_5_stocks := head5 (sort_values_descending argsort score performance) in
  analyze_and_recommend argsort d w
  = (Returned (performance, top_5_stocks),
     {| net := net w;
        files := <[top5_csv := CsvPerformance top_5_stocks]> (files w);
        stdout := stdout w
                  ++ ["Top 5 recommendations saved to top_5_recommendations.csv"];
        heap := <[d := analyzed_frame df]> (heap w) |}).
Proof.
  intros H Hne. cbv zeta.
  unfold analyze_and_recommend. unfold bind at 1. unfold read_frame at 1.
  rewrite H, Hne.
  unfold bind, update_frame, read_frame, to_csv, print, ret, set_heap, set_files,
    set_stdout.
  cbn [heap files stdout net]. rewrite H. cbn [heap files stdout net].
  repeat (first [rewrite lookup_insert_eq | rewrite insert_insert_eq];
          cbn [heap files stdout net]).
  reflexivity.
Qed.

(** ** The Regressor and the script *)

Lemma perform_regression_spec argsort coef rsq w d df :
  heap w !! d = Some df ->
  let stock_metrics := regression_metrics coef rsq df in
  let top_stocks := top_regression argsort stock_metrics in
  perform_regression argsort coef rsq d w
  = (Returned (stock_metrics, top_stocks),
     {| net := net w;
        files := <[top_regression_csv := CsvRegression top_stocks]>
                   (<[metrics_csv := CsvRegression stock_metrics]> (files w));
        stdout := stdout w
                  ++ ["Regression metrics saved to stock_regression_metrics.csv";
                      "Top 5 stocks by regression saved to top_5_stocks_regression.csv"];
        heap := heap w |}).
Proof.
  intros H. cbv zeta. unfold perform_regression, bind, read_frame. rewrite H.
  cbn. rewrite <- app_assoc. reflexivity.
Qed.

Lemma script_no_data argsort coef rsq symbols w :
  existsb (fun s => gives_data (net w s)) symbols = false ->
  exists lines,
    script argsort coef rsq symbols w
    = (Exited,
       {| net := net w; files := files w;
          stdout := stdout w ++ lines
                    ++ ["No data available from API. Exiting..."];
          heap := <[fresh (dom (heap w)) := []]> (heap w) |}).
Proof.
  intros Hno. unfold script. unfold bind at 1.
  destruct (fetch_spec symbols w) as [lines Hf]. rewrite Hf, Hno.
  rewrite (combined_dataset_no_data _ _ Hno).
  unfold bind, read_frame. cbn [heap]. rewrite lookup_insert_eq.
  exists lines. cbn. rewrite <- app_assoc. reflexivity.
Qed.

(** ** Claims about the Fetcher *)

Lemma record_of_row_of_record r : record_of_row (row_of_record r) = r.
Proof. destruct r; reflexivity. Qed.

Lemma records_of_combined nt symbols :
  List.map record_of_row (combined_dataset nt symbols)
  = List.concat (List.map (fun s => delivered (nt s)) symbols).
Proof.
  unfold combined_dataset, pd_concat, DataFrame_of_records.
  induction symbols as [ | s rest IH]; cbn; [reflexivity | ].
  rewrite List.map_app, IH, List.map_map. f_equal.
  rewrite <- (List.map_id (delivered (nt s))) at 2.
  apply List.map_ext. intros r. apply record_of_row_of_record.
Qed.

Lemma delivered_in_combined nt symbols s r :
  In s symbols -> In r (delivered (nt s)) ->
  In (row_of_record r) (combined_dataset nt symbols).
Proof.
  intros Hs Hr. unfold combined_dataset, pd_concat.
  apply in_concat. exists (DataFrame_of_records (delivered (nt s))). split.
  - apply in_map_iff. exists s. split; [reflexivity | exact Hs].
  - unfold DataFrame_of_records. apply in_map. exact Hr.
Qed.

(** C7. For every run of the Fetcher the combined dataset is the
    concatenation, in request order, of the frames built from the
    successful responses: reading its rows back as records gives exactly
    the delivered records, block after block, and every delivered record
    has its row in the combined dataset. *)
Theorem fetch_concat_preserves_records (symbols : list string) (w : World) :
  exists data w',
    fetch_last_60_days_prices symbols w = (Returned data, w') /\
    heap w' !! data
    = Some (pd_concat (List.map (fun s => DataFrame_of_records (delivered (net w s)))
                                symbols)) /\
    List.map record_of_row (combined_dataset (net w) symbols)
    = List.concat (List.map (fun s => delivered (net w s)) symbols) /\
    Forall (fun s =>
              Forall (fun r => In (row_of_record r) (combined_dataset (net w) symbols))
                     (delivered (net w s)))
           symbols.
Proof.
  destruct (fetch_spec symbols w) as [lines Hf].
  eexists _, _. split; [exact Hf | ]. cbn [heap]. split; [ | split].
  - rewrite lookup_insert_eq. reflexivity.
  - apply records_of_combined.
  - apply List.Forall_forall. intros s Hs. apply List.Forall_forall. intros r Hr.
    eapply delivered_in_combined; eassumption.
Qed.

(** C9. The Fetcher writes [last_60_days_prices.csv] exactly when some
    symbol's request came back with status 200 and a non-empty [data]
    array; otherwise it returns an empty table and leaves every file,
    the raw-data file of an earlier run included, as it was. *)
Theorem fetch_writes_raw_csv_iff (symbols : list string) (w : World) :
  exists data w',
    fetch_last_60_days_prices symbols w = (Returned data, w') /\
    if existsb (fun s => gives_data (net w s)) symbols
    then files w' = <[raw_csv := CsvPrices (combined_dataset (net w) symbols)]> (files w)
         /\ heap w' !! data = Some (combined_dataset (net w) symbols)
    else files w' = files w /\ heap w' !! data = Some [].
Proof.
  destruct (fetch_spec symbols w) as [lines Hf].
  eexists _, _. split; [exact Hf | ]. cbn [heap files].
  destruct (existsb (fun s => gives_data (net w s)) symbols) eqn:Hany.
  - split; [reflexivity | apply lookup_insert_eq].
  - split; [reflexivity | ].
    rewrite lookup_insert_eq, (combined_dataset_no_data _ _ Hany). reflexivity.
Qed.

(** C3. When the symbol list is empty, or no request comes back with
    data, the Fetcher returns an empty table; the Recommender, given that
    table, returns two empty tables after printing its notice and touches
    no file; and the script ends through [exit()], not through an
    exception. *)
Theorem no_data_no_exception argsort coef rsq (symbols : list string) (w : World) :
  existsb (fun s => gives_data (net w s)) symbols = false ->
  (exists data w1,
      fetch_last_60_days_prices symbols w = (Returned data, w1) /\
      heap w1 !! data = Some [] /\
      exists w2,
        analyze_and_recommend argsort data w1 = (Returned ([], []), w2) /\
        stdout w2 = stdout w1 ++ ["No data available for analysis."] /\
        files w2 = files w /\ heap w2 = heap w1) /\
  (exists w', script argsort coef rsq symbols w = (Exited, w') /\ files w' = files w).
Proof.
  intros Hno. split.
  - destruct (fetch_spec symbols w) as [lines Hf]. rewrite Hno in Hf.
    rewrite (combined_dataset_no_data _ _ Hno) in Hf.
    eexists _, _. split; [exact Hf | ]. cbn [heap].
    split; [apply lookup_insert_eq | ].
    eexists. split.
    + apply analyze_empty. cbn [heap]. apply lookup_insert_eq.
    + cbn. auto.
  - destruct (script_no_data argsort coef rsq symbols w Hno) as [lines Hs].
    eexists. split; [exact Hs | reflexivity].
Qed.

Lemma no_data_no_exception_witness :
  (exists data w1,
      fetch_last_60_days_prices ["AAA"; "BBB"; "CCC"] fresh_world
      = (Returned data, w1) /\
      heap w1 !! data = Some [] /\
      exists w2,
        analyze_and_recommend stable_argsort data w1 = (Returned ([], []), w2) /\
        stdout w2 = stdout w1 ++ ["No data available for analysis."] /\
        files w2 = files fresh_world /\ heap w2 = heap w1) /\
  (exists w',
      script stable_argsort sample_coef sample_rsquared_adj ["AAA"; "BBB"; "CCC"]
        fresh_world
      = (Exited, w') /\ files w' = files fresh_world).
Proof.
  apply (no_data_no_exception stable_argsort sample_coef sample_rsquared_adj
           ["AAA"; "BBB"; "CCC"] fresh_world).
  reflexivity.
Defined.

(** ** binary64 division: when a quotient is finite *)

Lemma div_by_zero_not_finite a v :
  F64.is_zero v = true -> F64.is_finite (F64.div a v) = false.
Proof. destruct a, v; intros H; try discriminate H; reflexivity. Qed.

Lemma div_by_nan a v : F64.is_nan v = true -> F64.is_nan (F64.div a v) = true.
Proof. destruct a, v; intros H; try discriminate H; reflexivity. Qed.

Lemma div_of_nan v : F64.div F64.nan v = F64.nan.
Proof. reflexivity. Qed.

Lemma div_of_non_finite a v :
  F64.is_finite a = false -> F64.is_finite (F64.div a v) = false.
Proof. destruct a, v; intros H; try discriminate H; reflexivity. Qed.

Lemma finite_div_inv a v :
  F64.is_finite (F64.div a v) = true ->
  F64.is_finite a = true /\ F64.is_zero v = false /\ F64.is_nan v = false.
Proof.
  intros H.
  destruct a, v; try (repeat split; reflexivity); cbn in H; discriminate H.
Qed.

Section RoundingNeverNaN.
Local Open Scope Z_scope.

Lemma shr_1_nonneg mrs : 0 <= shr_m mrs -> 0 <= shr_m (shr_1 mrs).
Proof.
  destruct mrs as [m r s]. destruct m as [ | p | p]; cbn; intros H.
  - lia.
  - destruct p; cbn; lia.
  - lia.
Qed.

Lemma iter_shr_1_nonneg p : forall mrs,
  0 <= shr_m mrs -> 0 <= shr_m (SpecFloat.iter_pos shr_1 p mrs).
Proof.
  induction p as [p IH | p IH | ]; cbn; intros mrs H.
  - apply IH, IH, shr_1_nonneg, H.
  - apply IH, IH, H.
  - apply shr_1_nonneg, H.
Qed.

Lemma shr_fexp_nonneg m e l :
  0 <= m -> 0 <= shr_m (fst (shr_fexp F64.prec F64.emax m e l)).
Proof.
  intros H. unfold shr_fexp, shr.
  assert (H0 : 0 <= shr_m (shr_record_of_loc m l))
    by (destruct l as [ | [ | | ]]; exact H).
  destruct (fexp F64.prec F64.emax (Zdigits2 m + e) - e); cbn [fst];
    try exact H0.
  apply iter_shr_1_nonneg, H0.
Qed.

Lemma round_nearest_even_nonneg m l : 0 <= m -> 0 <= round_nearest_even m l.
Proof.
  intros H. unfold round_nearest_even.
  destruct l as [ | [ | | ]]; try destruct (Z.even m); lia.
Qed.

Lemma binary_round_aux_not_nan sx mx ex lx :
  0 <= mx ->
  F64.is_nan (binary_round_aux F64.prec F64.emax sx mx ex lx) = false.
Proof.
  intros H. unfold binary_round_aux.
  pose proof (shr_fexp_nonneg mx ex lx H) as H1.
  destruct (shr_fexp F64.prec F64.emax mx ex lx) as [mrs' e']. cbn [fst] in H1.
  pose proof (shr_fexp_nonneg _ e' loc_Exact
                (round_nearest_even_nonneg _ (loc_of_shr_record mrs') H1)) as H2.
  destruct (shr_fexp F64.prec F64.emax
              (round_nearest_even (shr_m mrs') (loc_of_shr_record mrs')) e' loc_Exact)
    as [mrs'' e''].
  cbn [fst] in H2.
  destruct (shr_m mrs'') as [ | m | m]; [reflexivity | | lia].
  destruct (e'' <=? F64.emax - F64.prec); reflexivity.
Qed.

Lemma div_core_nonneg mx ex my ey :
  0 <= fst (fst (SFdiv_core_binary F64.prec F64.emax (Zpos mx) ex (Zpos my) ey)).
Proof.
  unfold SFdiv_core_binary.
  set (e' := Z.min _ _). set (s := ex - ey - e').
  set (m' := match s with Zpos _ => Z.shiftl (Zpos mx) s | Z0 => Zpos mx | Zneg _ => 0 end).
  assert (Hm : 0 <= m').
  { subst m'. destruct s; try lia. apply Z.shiftl_nonneg. lia. }
  pose proof (Z_div_mod m' (Zpos my) eq_refl) as Hd.
  destruct (Z.div_eucl m' (Zpos my)) as [q r]. cbn [fst].
  destruct Hd as [Hq Hr]. nia.
Qed.
End RoundingNeverNaN.

(** A finite number divided by a number that is neither zero nor NaN is
    never NaN: the quotient is a finite number, or an infinity when it
    leaves the binary64 range. *)
Lemma finite_div_not_nan a v :
  F64.is_finite a = true -> F64.is_zero v = false -> F64.is_nan v = false ->
  F64.is_nan (F64.div a v) = false.
Proof.
  intros Ha Hz Hn.
  destruct a as [sa | sa | | sa ma ea]; try discriminate Ha;
    destruct v as [sv | sv | | sv mv ev]; try discriminate Hz; try discriminate Hn;
    try reflexivity.
  unfold F64.div, SFdiv.
  pose proof (div_core_nonneg ma ea mv ev) as Hq.
  destruct (SFdiv_core_binary F64.prec F64.emax (Zpos ma) ea (Zpos mv) ev)
    as [[mz ez] lz].
  cbn [fst] in Hq. apply binary_round_aux_not_nan, Hq.
Qed.

(** ** Claims about the score *)

Lemma mean_all_nan col :
  forallb F64.is_nan col = true -> mean col = F64.nan.
Proof.
  intros H. unfold mean.
  assert (Hf : List.filter not_nan col = []).
  { induction col as [ | x col IH]; cbn in *; [reflexivity | ].
    apply andb_prop in H. destruct H as [Hx Hc].
    unfold not_nan at 1. rewrite Hx. cbn. apply IH, Hc. }
  rewrite Hf. reflexivity.
Qed.

(** C6, as amended. For every symbol of the performance table the score is
    avg_percent_change divided by volatility. It is not finite when the
    volatility is zero, and it is NaN when all percent changes of the
    symbol are NaN. A finite score needs a finite average and a volatility
    that is neither zero nor NaN; with such an average and volatility the
    score is never NaN, but it is an infinity when the quotient leaves the
    binary64 range. The symbol with five flat days gets the score 0/0, NaN. *)
Theorem score_is_quotient (df : list Row) :
  Forall2 (fun g p =>
             p = performance_row g /\
             score p = F64.div (avg_percent_change p) (volatility p) /\
             (F64.is_zero (volatility p) = true ->
              F64.is_finite (score p) = false) /\
             (forallb F64.is_nan (percent_changes (snd g)) = true ->
              F64.is_nan (score p) = true) /\
             (F64.is_finite (score p) = true ->
              F64.is_finite (avg_percent_change p) = true
              /\ F64.is_zero (volatility p) = false
              /\ F64.is_nan (volatility p) = false) /\
             (F64.is_finite (avg_percent_change p) = true ->
              F64.is_zero (volatility p) = false ->
              F64.is_nan (volatility p) = false ->
              F64.is_nan (score p) = false))
          (groupby_symbol df) (performance_table df)
  /\ List.map score (performance_table (analyzed_frame flat_days)) = [F64.nan].
Proof.
  split; [ | vm_compute; reflexivity].
  unfold performance_table.
  induction (groupby_symbol df) as [ | g gs IH]; cbn [List.map]; constructor;
    [ | exact IH].
  split; [reflexivity | ]. split; [reflexivity | ].
  cbn [score avg_percent_change volatility performance_row].
  split; [apply div_by_zero_not_finite | ].
  split; [intros H; rewrite (mean_all_nan _ H); reflexivity | ].
  split; [apply finite_div_inv | apply finite_div_not_nan].
Qed.

(** C6, the claim as stated fails: the two days of [overflow_days] give AAA
    a volatility of plus infinity, which is neither zero nor NaN, and the
    score infinity/infinity, which is NaN. *)
Lemma overflowing_average_scores_nan :
  exists p,
    In p (performance_table (analyzed_frame overflow_days)) /\
    F64.is_zero (volatility p) = false /\
    F64.is_nan (volatility p) = false /\
    F64.is_finite (score p) = false.
Proof.
  eexists. split; [vm_compute; left; reflexivity | ].
  vm_compute. auto.
Qed.

(** ** Claims about the files the Recommender writes *)

(** C1, as amended. On a non-empty table the Recommender changes one file:
    it writes the top-5 slice to [top_5_recommendations.csv]. The full
    performance table is returned, and is written to no file. *)
Theorem analyze_writes_top5_only argsort (w : World) (d : nat) (df : list Row) :
  heap w !! d = Some df -> empty df = false ->
  exists performance top_5_stocks w',
    analyze_and_recommend argsort d w = (Returned (performance, top_5_stocks), w') /\
    performance = performance_table (analyzed_frame df) /\
    top_5_stocks = head5 (sort_values_descending argsort score performance) /\
    files w' = <[top5_csv := CsvPerformance top_5_stocks]> (files w).
Proof.
  intros H Hne. eexists _, _, _.
  split; [apply (analyze_nonempty argsort w d df H Hne) | ].
  cbn [files]. auto.
Qed.

Lemma analyze_writes_top5_only_witness :
  exists performance top_5_stocks w',
    analyze_and_recommend stable_argsort O (world_with twin_symbols)
    = (Returned (performance, top_5_stocks), w') /\
    performance = performance_table (analyzed_frame twin_symbols) /\
    top_5_stocks = head5 (sort_values_descending stable_argsort score performance) /\
    files w' = <[top5_csv := CsvPerformance top_5_stocks]> (files (world_with twin_symbols)).
Proof.
  apply (analyze_writes_top5_only stable_argsort (world_with twin_symbols) O twin_symbols).
  - reflexivity.
  - reflexivity.
Defined.

(** C1, the claim as stated fails: started without files on the two
    symbols of [twin_symbols], the Recommender does not leave two
    different files holding the performance table and the top-5 slice. *)
Lemma performance_table_not_written :
  ~ exists performance top_5_stocks w' f1 f2,
      analyze_and_recommend stable_argsort O (world_with twin_symbols)
      = (Returned (performance, top_5_stocks), w') /\
      f1 <> f2 /\
      files w' !! f1 = Some (CsvPerformance performance) /\
      files w' !! f2 = Some (CsvPerformance top_5_stocks).
Proof.
  intros (performance & top & w' & f1 & f2 & Hrun & Hne & H1 & H2).
  rewrite (analyze_nonempty stable_argsort (world_with twin_symbols) O twin_symbols
             eq_refl eq_refl) in Hrun.
  pose proof (f_equal (fun r => files (snd r)) Hrun) as Hfiles.
  cbv beta in Hfiles. cbn [snd files world_with] in Hfiles.
  rewrite <- Hfiles in H1, H2.
  apply lookup_insert_Some in H1, H2.
  destruct H1 as [[<- _] | [_ H1]]; [ | rewrite lookup_empty in H1; discriminate].
  destruct H2 as [[<- _] | [_ H2]]; [ | rewrite lookup_empty in H2; discriminate].
  apply Hne. reflexivity.
Qed.

(** ** Sorting *)

Section InsertionSortFacts.
Context {A : Type} (leb : A -> A -> bool).
Hypothesis leb_total : forall x y, leb x y = false -> leb y x = true.

Lemma insert_sorted_perm x l : Permutation (insert_sorted leb x l) (x :: l).
Proof.
  induction l as [ | y l IH]; cbn; [reflexivity | ].
  destruct (leb x y); [reflexivity | ].
  rewrite IH. apply perm_swap.
Qed.

Lemma insertion_sort_perm l : Permutation (insertion_sort leb l) l.
Proof.
  induction l as [ | x l IH]; cbn; [reflexivity | ].
  rewrite insert_sorted_perm. constructor. exact IH.
Qed.

Lemma insert_sorted_Sorted x l :
  Sorted (fun a b => leb a b = true) l ->
  Sorted (fun a b => leb a b = true) (insert_sorted leb x l).
Proof.
  induction l as [ | y l IH]; cbn; intros Hs.
  - repeat constructor.
  - destruct (leb x y) eqn:Hxy.
    + constructor; [exact Hs | constructor; exact Hxy].
    + apply Sorted_inv in Hs. destruct Hs as [Hs Hd].
      constructor; [apply IH, Hs | ].
      destruct l as [ | z l]; cbn.
      * constructor. apply leb_total, Hxy.
      * destruct (leb x z); constructor.
        -- apply leb_total, Hxy.
        -- apply HdRel_inv in Hd. exact Hd.
Qed.

Lemma insertion_sort_Sorted l :
  Sorted (fun a b => leb a b = true) (insertion_sort leb l).
Proof.
  induction l as [ | x l IH]; cbn; [constructor | ].
  apply insert_sorted_Sorted, IH.
Qed.
End InsertionSortFacts.

Lemma symbol_date_leb_total r1 r2 :
  symbol_date_leb r1 r2 = false -> symbol_date_leb r2 r1 = true.
Proof.
  unfold symbol_date_leb.
  rewrite (String.compare_antisym (symbol r2) (symbol r1)).
  destruct (String.compare (symbol r1) (symbol r2)); cbn; intros H.
  - apply Z.leb_le. apply Z.leb_gt in H. lia.
  - discriminate H.
  - reflexivity.
Qed.

Lemma in_firstn {A} n (l : list A) x : In x (firstn n l) -> In x l.
Proof.
  revert l. induction n as [ | n IH]; intros [ | y l]; cbn; try tauto.
  intros [<- | H]; [left; reflexivity | right; apply IH, H].
Qed.

Section StronglySortedFacts.
Context {A : Type}.




Lemma StronglySorted_weaken (R R' : A -> A -> Prop) (Q : A -> Prop) l :
  StronglySorted R l -> Forall Q l ->
  (forall a b, Q a -> Q b -> R a b -> R' a b) ->
  StronglySorted R' l.
Proof.
  intros Hs HQ Himp. induction Hs as [ | x l Hs IH Hx]; constructor.
  - apply IH. apply Forall_inv_tail in HQ. exact HQ.
  - pose proof (Forall_inv HQ) as Qx. apply Forall_inv_tail in HQ.
    rewrite List.Forall_forall in Hx, HQ |- *. intros b Hb.
    apply Himp; [exact Qx | apply HQ, Hb | apply Hx, Hb].
Qed.

End StronglySortedFacts.


Lemma StronglySorted_map_inv {A B} (f : A -> B) (R : B -> B -> Prop) l :
  StronglySorted R (List.map f l) -> StronglySorted (fun a b => R (f a) (f b)) l.
Proof.
  induction l as [ | x l IH]; cbn; intros Hs; [constructor | ].
  apply StronglySorted_inv in Hs. destruct Hs as [Hs Hx].
  constructor; [apply IH, Hs | ]. apply (proj1 (List.Forall_map f _ l)), Hx.
Qed.

Lemma ascendingb_StronglySorted l :
  ascendingb l = true -> StronglySorted (fun x y => F64.leb x y = true) l.
Proof.
  induction l as [ | x l IH]; cbn; intros H; [constructor | ].
  apply andb_prop in H. destruct H as [Hx Hl].
  constructor; [apply IH, Hl | ].
  apply List.Forall_forall. rewrite forallb_forall in Hx. exact Hx.
Qed.

Lemma no_dupb_NoDup p : no_dupb p = true -> List.NoDup p.
Proof.
  induction p as [ | i p IH]; cbn; intros H; [apply List.NoDup_nil | ].
  apply andb_prop in H. destruct H as [Hi Hp].
  apply List.NoDup_cons; [ | apply IH, Hp].
  intros Hin. apply negb_true_iff in Hi.
  assert (existsb (Nat.eqb i) p = true); [ | congruence].
  apply existsb_exists. exists i. split; [exact Hin | apply Nat.eqb_refl].
Qed.

Lemma in_omap {A B} (f : A -> option B) l y :
  In y (omap f l) -> exists x, In x l /\ f x = Some y.
Proof.
  induction l as [ | x l IH]; cbn; [intros [] | ].
  destruct (f x) as [z | ] eqn:Hfx; cbn.
  - intros [<- | Hin].
    + exists x. auto.
    + destruct (IH Hin) as (x' & Hx' & Hf). exists x'. auto.
  - intros Hin. destruct (IH Hin) as (x' & Hx' & Hf). exists x'. auto.
Qed.

Lemma lookup_In {A} (l : list A) i x : l !! i = Some x -> In x l.
Proof. intros H. apply list_elem_of_In. eapply list_elem_of_lookup_2, H. Qed.

Lemma take_rows_incl {A} (df : list A) ix x : In x (take_rows df ix) -> In x df.
Proof.
  intros H. apply in_omap in H. destruct H as (i & _ & Hi).
  eapply lookup_In, Hi.
Qed.


Lemma take_rows_all {A} (l1 l2 : list A) :
  take_rows (l1 ++ l2) (seq (length l1) (length l2)) = l2.
Proof.
  revert l1. induction l2 as [ | x l2 IH]; intros l1; cbn; [reflexivity | ].
  rewrite (list_lookup_middle l1 l2 x (length l1) eq_refl). f_equal.
  specialize (IH (l1 ++ [x])).
  rewrite <- app_assoc, length_app in IH. cbn in IH.
  rewrite Nat.add_1_r in IH. exact IH.
Qed.

Lemma filter_partition_perm {A} (f : A -> bool) l :
  Permutation (List.filter (fun x => negb (f x)) l ++ List.filter f l) l.
Proof.
  induction l as [ | x l IH]; cbn; [reflexivity | ].
  destruct (f x); cbn.
  - rewrite <- Permutation_middle. constructor. exact IH.
  - constructor. exact IH.
Qed.

Lemma map_nth_seq {A} (l : list A) d :
  List.map (fun k => nth k l d) (seq 0 (length l)) = l.
Proof.
  induction l as [ | x l IH]; cbn; [reflexivity | ].
  f_equal. rewrite <- seq_shift, List.map_map. exact IH.
Qed.

(** *** What [sort_values] gives when [argsort] keeps its promise *)

Section SortValuesFacts.
Variable argsort : list float -> list nat.

Lemma argsort_ok_inv l p :
  argsort_ok l p = true ->
  length p = length l /\ Forall (fun i => (i < length l)%nat) p /\ List.NoDup p /\
  StronglySorted (fun k k' => F64.leb (nth k l F64.nan) (nth k' l F64.nan) = true) p.
Proof.
  unfold argsort_ok. intros H.
  apply andb_prop in H. destruct H as [H H4].
  apply andb_prop in H. destruct H as [H H3].
  apply andb_prop in H. destruct H as [H1 H2].
  split; [apply Nat.eqb_eq, H1 | ]. split; [ | split].
  - apply List.Forall_forall. rewrite forallb_forall in H2.
    intros i Hi. apply Nat.ltb_lt, H2, Hi.
  - apply no_dupb_NoDup, H3.
  - apply StronglySorted_map_inv with (R := fun x y => F64.leb x y = true).
    apply ascendingb_StronglySorted, H4.
Qed.

Lemma argsort_ok_perm l p :
  argsort_ok l p = true -> Permutation p (seq 0 (length l)).
Proof.
  intros H. apply argsort_ok_inv in H. destruct H as (Hlen & Hlt & Hnd & _).
  apply NoDup_Permutation_bis; [exact Hnd | rewrite length_seq; lia | ].
  intros i Hi. rewrite List.Forall_forall in Hlt.
  apply in_seq. specialize (Hlt i Hi). lia.
Qed.

Lemma reversed_non_nans_map items :
  reversed_non_nans items
  = List.map (fun i => nth i items F64.nan) (rev (non_nan_positions items)).
Proof. unfold reversed_non_nans. rewrite List.map_rev. reflexivity. Qed.




Lemma nargsort_descending_perm items :
  argsort_sorts argsort items ->
  Permutation (nargsort_descending argsort items) (seq 0 (length items)).
Proof.
  intros Hok. unfold argsort_sorts in Hok. apply argsort_ok_perm in Hok.
  unfold nargsort_descending.
  rewrite <- Permutation_rev.
  rewrite (Permutation_map (fun k => nth k (rev (non_nan_positions items)) O) Hok).
  rewrite reversed_non_nans_map, length_map, map_nth_seq.
  rewrite <- Permutation_rev.
  apply (filter_partition_perm (fun i => F64.is_nan (nth i items F64.nan))).
Qed.


Lemma sort_values_descending_perm {A} (key : A -> float) (df : list A) :
  argsort_sorts argsort (List.map key df) ->
  Permutation (sort_values_descending argsort key df) df.
Proof.
  intros Hok. unfold sort_values_descending, take_rows.
  rewrite (nargsort_descending_perm _ Hok), length_map.
  pose proof (take_rows_all [] df) as Hall. cbn in Hall.
  unfold take_rows in Hall. rewrite Hall. reflexivity.
Qed.

End SortValuesFacts.


(** ** Claims about the rankings *)




Lemma top_const_rows coef rsq argsort df r :
  In r (top_regression argsort (regression_metrics coef rsq df)) ->
  In r (regression_metrics coef rsq df) /\ variable r = "const".
Proof.
  unfold top_regression, head5. intros H.
  apply in_firstn, take_rows_incl, filter_In in H. destruct H as [H Hc].
  split; [exact H | ]. apply String.eqb_eq, Hc.
Qed.



(** ** The Recommender changes its input *)

Lemma Sorted_map_intro {A B} (f : A -> B) (R : B -> B -> Prop) l :
  Sorted (fun a b => R (f a) (f b)) l -> Sorted R (List.map f l).
Proof.
  induction 1 as [ | x l Hs IH Hd]; cbn; constructor; [exact IH | ].
  destruct Hd; cbn; constructor. assumption.
Qed.

Lemma analyzed_frame_rows df r :
  In r (analyzed_frame df) ->
  date r = Timestamp (instant_of (date r)) /\
  percent_change r = Some (pct_change r).
Proof.
  unfold analyzed_frame, add_percent_change, sort_by_symbol_date, to_datetime.
  intros H. apply in_map_iff in H. destruct H as (r0 & <- & H0).
  apply (Permutation_in _ (insertion_sort_perm symbol_date_leb _)) in H0.
  apply in_map_iff in H0. destruct H0 as (r1 & <- & _).
  split; reflexivity.
Qed.

Lemma analyzed_frame_sorted df :
  Sorted (fun r1 r2 => symbol_date_leb r1 r2 = true) (analyzed_frame df).
Proof.
  unfold analyzed_frame, add_percent_change.
  apply Sorted_map_intro.
  apply (insertion_sort_Sorted symbol_date_leb symbol_date_leb_total).
Qed.

Lemma analyzed_frame_records df :
  Permutation (List.map record_of_row (analyzed_frame df))
              (List.map record_of_row df).
Proof.
  unfold analyzed_frame, add_percent_change, sort_by_symbol_date.
  rewrite List.map_map. cbn [record_of_row symbol date adj_open adj_close
                              dividend volume others].
  change (fun x : Row => _) with record_of_row.
  rewrite (Permutation_map record_of_row (insertion_sort_perm symbol_date_leb _)).
  unfold to_datetime. rewrite List.map_map. reflexivity.
Qed.

Lemma analyzed_frame_differs df :
  empty df = false -> Forall (fun r => percent_change r = None) df ->
  analyzed_frame df <> df.
Proof.
  intros Hne Hnone Heq. destruct df as [ | r df]; [discriminate Hne | ].
  assert (Hin : In r (analyzed_frame (r :: df))) by (rewrite Heq; left; reflexivity).
  apply analyzed_frame_rows in Hin. destruct Hin as [_ Hsome].
  apply Forall_inv in Hnone. congruence.
Qed.

Lemma combined_dataset_with_data nt symbols :
  existsb (fun s => gives_data (nt s)) symbols = true ->
  empty (combined_dataset nt symbols) = false.
Proof.
  unfold combined_dataset, pd_concat, DataFrame_of_records.
  induction symbols as [ | s rest IH]; cbn; [discriminate | ].
  unfold gives_data at 1. destruct (delivered (nt s)); cbn; [exact IH | reflexivity].
Qed.

(** When some symbol gives data the script runs both analyses, and the
    frame the global [data] refers to at the end is the Recommender's
    rewrite of the fetched table, not the fetched table. *)
Lemma script_shares_changed_frame argsort coef rsq symbols w :
  existsb (fun s => gives_data (net w s)) symbols = true ->
  exists tables w',
    script argsort coef rsq symbols w
    = (Returned (fresh (dom (heap w)), fst tables, snd tables), w') /\
    heap w' !! fresh (dom (heap w))
    = Some (analyzed_frame (to_datetime (combined_dataset (net w) symbols))) /\
    analyzed_frame (to_datetime (combined_dataset (net w) symbols))
    <> combined_dataset (net w) symbols.
Proof.
  intros Hany. pose proof (combined_dataset_with_data _ _ Hany) as Hne.
  assert (Hne' : empty (to_datetime (combined_dataset (net w) symbols)) = false).
  { destruct (combined_dataset (net w) symbols); [discriminate Hne | reflexivity]. }
  destruct (fetch_spec symbols w) as [lines Hf]. rewrite Hany in Hf.
  unfold script. unfold bind at 1. rewrite Hf.
  unfold bind at 1. unfold read_frame at 1. cbn [heap]. rewrite lookup_insert_eq.
  rewrite Hne.
  unfold bind at 1. unfold update_frame at 1. cbn [heap]. rewrite lookup_insert_eq.
  unfold set_heap. cbn [net files stdout heap]. rewrite insert_insert_eq.
  unfold bind at 1.
  rewrite (analyze_nonempty argsort _ _ _ (lookup_insert_eq _ _ _) Hne').
  cbn [heap]. rewrite insert_insert_eq.
  unfold bind at 1.
  rewrite (perform_regression_spec argsort coef rsq _ _ _ (lookup_insert_eq _ _ _)).
  eexists (_, _), _. split; [reflexivity | ]. cbn [heap].
  split; [apply lookup_insert_eq | ].
  intros Heq.
  assert (Hsome : Forall (fun r => percent_change r = None)
                    (combined_dataset (net w) symbols)).
  { unfold combined_dataset, pd_concat, DataFrame_of_records.
    apply List.Forall_forall. intros r Hr. apply in_concat in Hr.
    destruct Hr as (l & Hl & Hr). apply in_map_iff in Hl.
    destruct Hl as (s & <- & _). apply in_map_iff in Hr.
    destruct Hr as (r0 & <- & _). reflexivity. }
  destruct (combined_dataset (net w) symbols) as [ | r rs] eqn:E; [discriminate Hne | ].
  assert (Hin : In r (analyzed_frame (to_datetime (r :: rs))))
    by (rewrite Heq; left; reflexivity).
  apply analyzed_frame_rows in Hin. destruct Hin as [_ Hpc].
  apply Forall_inv in Hsome. congruence.
Qed.

(** C8. On every non-empty call the Recommender changes the frame object
    it is given: afterwards the object at the same reference has every
    date as a timestamp, its rows in (symbol, date) order, and a
    percent_change entry in every row; it holds the same records as
    before. The dashboard callback reads this object, and it differs from
    a table as the Fetcher returns it, which has no percent_change
    column. *)
Theorem analyze_mutates_input argsort (w : World) (d : nat) (df : list Row)
        (selected_symbol : string) :
  heap w !! d = Some df -> empty df = false ->
  exists result w' df',
    analyze_and_recommend argsort d w = (Returned result, w') /\
    heap w' !! d = Some df' /\
    Forall (fun r => date r = Timestamp (instant_of (date r)) /\
                     percent_change r = Some (pct_change r)) df' /\
    Sorted (fun r1 r2 => symbol_date_leb r1 r2 = true) df' /\
    Permutation (List.map record_of_row df') (List.map record_of_row df) /\
    update_dashboard d selected_symbol w'
    = (Returned (rows_of_symbol df' selected_symbol), w') /\
    (Forall (fun r => percent_change r = None) df -> df' <> df).
Proof.
  intros H Hne. eexists _, _, (analyzed_frame df).
  split; [apply analyze_nonempty; eassumption | ].
  cbn [heap]. split; [apply lookup_insert_eq | ].
  split; [apply List.Forall_forall; intros r; apply analyzed_frame_rows | ].
  split; [apply analyzed_frame_sorted | ].
  split; [apply analyzed_frame_records | ].
  split; [ | apply analyzed_frame_differs, Hne].
  unfold update_dashboard, bind, read_frame. cbn [heap].
  rewrite lookup_insert_eq. reflexivity.
Qed.

Lemma analyze_mutates_input_witness :
  exists result w' df',
    analyze_and_recommend stable_argsort O (world_with sample_days)
    = (Returned result, w') /\
    heap w' !! O = Some df' /\
    Forall (fun r => date r = Timestamp (instant_of (date r)) /\
                     percent_change r = Some (pct_change r)) df' /\
    Sorted (fun r1 r2 => symbol_date_leb r1 r2 = true) df' /\
    Permutation (List.map record_of_row df') (List.map record_of_row sample_days) /\
    update_dashboard O "BBB" w' = (Returned (rows_of_symbol df' "BBB"), w') /\
    (Forall (fun r => percent_change r = None) sample_days -> df' <> sample_days).
Proof.
  apply (analyze_mutates_input stable_argsort (world_with sample_days) O
           sample_days "BBB").
  - reflexivity.
  - reflexivity.
Defined.

(** ** The regression metrics table *)

Lemma unique_In l x : In x (unique l) <-> In x l.
Proof.
  induction l as [ | y l IH]; cbn; [tauto | ].
  rewrite filter_In, IH. split.
  - intros [H | [H _]]; auto.
  - intros [H | H]; [auto | ].
    destruct (String.eqb y x) eqn:E.
    + left. apply String.eqb_eq, E.
    + right. auto.
Qed.

Lemma unique_NoDup l : List.NoDup (unique l).
Proof.
  induction l as [ | y l IH]; cbn; [apply List.NoDup_nil | ].
  apply List.NoDup_cons; [ | apply List.NoDup_filter, IH].
  rewrite filter_In. intros [_ H]. rewrite String.eqb_refl in H. discriminate H.
Qed.

Section RegressionFacts.
Variable coef : list (string * list float) -> list float -> nat -> CoefStats.
Variable rsq : list (string * list float) -> list float -> float.

Lemma regression_loop_flat_map cleaned symbols : forall acc,
  regression_loop coef rsq cleaned symbols acc
  = acc ++ flat_map (fun s => stock_results coef rsq s (rows_of_symbol cleaned s))
                    symbols.
Proof.
  induction symbols as [ | s rest IH]; intros acc; cbn.
  - rewrite app_nil_r. reflexivity.
  - rewrite IH. unfold pd_concat. cbn. rewrite app_nil_r, <- app_assoc.
    reflexivity.
Qed.

Lemma regression_metrics_flat_map df :
  regression_metrics coef rsq df
  = flat_map (fun s => stock_results coef rsq s (rows_of_symbol (dropna df) s))
             (stock_symbols df).
Proof. unfold regression_metrics. apply regression_loop_flat_map. Qed.

Lemma design_columns symbol_data :
  List.map fst (design symbol_data)
  = if is_constant_column (List.map adj_open symbol_data)
    then ["adj_open"] else ["const"; "adj_open"].
Proof.
  unfold design, add_constant. cbn [existsb snd]. rewrite orb_false_r.
  destruct (is_constant_column (List.map adj_open symbol_data)); reflexivity.
Qed.

Lemma stock_results_variables s symbol_data :
  List.map variable (stock_results coef rsq s symbol_data)
  = List.map fst (design symbol_data).
Proof.
  unfold stock_results. rewrite design_columns.
  destruct (is_constant_column (List.map adj_open symbol_data)); reflexivity.
Qed.

Lemma stock_results_rows s symbol_data :
  Forall (fun r => g_symbol r = s /\
                   g_score r = rsq (design symbol_data) (response symbol_data))
         (stock_results coef rsq s symbol_data).
Proof.
  unfold stock_results. rewrite design_columns.
  destruct (is_constant_column (List.map adj_open symbol_data));
    repeat constructor.
Qed.

Lemma stock_results_const_symbols s symbol_data :
  List.map g_symbol (List.filter is_const_row (stock_results coef rsq s symbol_data))
  = if is_constant_column (List.map adj_open symbol_data) then [] else [s].
Proof.
  unfold stock_results. rewrite design_columns.
  destruct (is_constant_column (List.map adj_open symbol_data)); reflexivity.
Qed.

Lemma stock_results_not_nil s symbol_data :
  stock_results coef rsq s symbol_data <> [].
Proof.
  intros H. apply (f_equal (List.map variable)) in H.
  rewrite stock_results_variables, design_columns in H.
  destruct (is_constant_column (List.map adj_open symbol_data)); discriminate H.
Qed.

Lemma filter_symbol_flat_map (F : string -> list RegRow) symbols s :
  (forall s', Forall (fun r => g_symbol r = s') (F s')) ->
  List.NoDup symbols -> In s symbols ->
  List.filter (fun r => String.eqb (g_symbol r) s) (flat_map F symbols) = F s.
Proof.
  intros HF Hnd Hin.
  assert (Hsame : List.filter (fun r => String.eqb (g_symbol r) s) (F s) = F s).
  { apply filter_all. eapply List.Forall_impl; [ | apply HF].
    cbn. intros r ->. apply String.eqb_refl. }
  assert (Hother : forall l, ~ In s l ->
            List.filter (fun r => String.eqb (g_symbol r) s) (flat_map F l) = []).
  { induction l as [ | s' l IH]; cbn; intros Hs; [reflexivity | ].
    rewrite List.filter_app, IH by tauto. rewrite app_nil_r.
    specialize (HF s'). induction HF as [ | r rs Hr _ IHr]; cbn; [reflexivity | ].
    rewrite Hr. destruct (String.eqb s' s) eqn:E; [ | exact IHr].
    apply String.eqb_eq in E. tauto. }
  induction Hnd as [ | s' l Hs' Hnd IH]; [destruct Hin | ].
  cbn. rewrite List.filter_app. destruct Hin as [-> | Hin].
  - rewrite Hsame, (Hother l Hs'), app_nil_r. reflexivity.
  - rewrite (IH Hin).
    assert (Hne : s' <> s) by (intros ->; tauto).
    assert (Hnil : List.filter (fun r => String.eqb (g_symbol r) s) (F s') = []).
    { specialize (HF s'). induction HF as [ | r rs Hr _ IHr]; cbn; [reflexivity | ].
      rewrite Hr. apply String.eqb_neq in Hne. rewrite Hne. exact IHr. }
    rewrite Hnil. reflexivity.
Qed.

Lemma rows_of_fitted_symbol df s :
  In s (List.map symbol (dropna df)) ->
  List.filter (fun r => String.eqb (g_symbol r) s) (regression_metrics coef rsq df)
  = stock_results coef rsq s (rows_of_symbol (dropna df) s).
Proof.
  intros Hin. rewrite regression_metrics_flat_map.
  apply (filter_symbol_flat_map
           (fun s => stock_results coef rsq s (rows_of_symbol (dropna df) s))).
  - intros s'. eapply List.Forall_impl; [ | apply stock_results_rows].
    cbn. intros r [H _]. exact H.
  - apply unique_NoDup.
  - apply unique_In, Hin.
Qed.

Lemma fitted_symbols df s :
  In s (List.map g_symbol (regression_metrics coef rsq df))
  <-> In s (List.map symbol (dropna df)).
Proof.
  split.
  - intros H. apply in_map_iff in H. destruct H as (r & <- & Hr).
    rewrite regression_metrics_flat_map in Hr. apply in_flat_map in Hr.
    destruct Hr as (s' & Hs' & Hr).
    pose proof (stock_results_rows s' (rows_of_symbol (dropna df) s')) as Hrows.
    rewrite List.Forall_forall in Hrows. destruct (Hrows r Hr) as [-> _].
    apply unique_In, Hs'.
  - intros H. pose proof (rows_of_fitted_symbol df s H) as Hrows.
    destruct (stock_results coef rsq s (rows_of_symbol (dropna df) s))
      as [ | r rs] eqn:E; [exfalso; eapply stock_results_not_nil, E | ].
    assert (Hr : In r (List.filter (fun r => String.eqb (g_symbol r) s)
                         (regression_metrics coef rsq df)))
      by (rewrite Hrows; left; reflexivity).
    apply filter_In in Hr. destruct Hr as [Hr Hs].
    apply in_map_iff. exists r. split; [apply String.eqb_eq, Hs | exact Hr].
Qed.

Lemma rows_of_symbol_not_nil df s :
  In s (List.map symbol df) -> rows_of_symbol df s <> [].
Proof.
  intros H. apply in_map_iff in H. destruct H as (r & <- & Hr).
  intros Hnil.
  assert (Hin : In r (rows_of_symbol df (symbol r))).
  { apply filter_In. split; [exact Hr | apply String.eqb_refl]. }
  rewrite Hnil in Hin. destruct Hin.
Qed.

Lemma const_symbols_NoDup df :
  List.NoDup (List.map g_symbol
                (List.filter is_const_row (regression_metrics coef rsq df))).
Proof.
  rewrite regression_metrics_flat_map.
  pose proof (unique_NoDup (List.map symbol (dropna df))) as Hnd.
  fold (stock_symbols df) in Hnd.
  induction Hnd as [ | s l Hs Hnd IH]; cbn; [apply List.NoDup_nil | ].
  rewrite List.filter_app, List.map_app, stock_results_const_symbols.
  destruct (is_constant_column _); cbn; [exact IH | ].
  apply List.NoDup_cons; [ | exact IH].
  intros Hin. apply Hs. apply in_map_iff in Hin. destruct Hin as (r & <- & Hr).
  apply filter_In in Hr. destruct Hr as [Hr _]. apply in_flat_map in Hr.
  destruct Hr as (s' & Hs' & Hr).
  pose proof (stock_results_rows s' (rows_of_symbol (dropna df) s')) as Hrows.
  rewrite List.Forall_forall in Hrows. destruct (Hrows r Hr) as [-> _]. exact Hs'.
Qed.
End RegressionFacts.

Lemma NoDup_firstn {A} n (l : list A) : List.NoDup l -> List.NoDup (firstn n l).
Proof.
  intros H. revert n. induction H as [ | x l Hx Hnd IH]; intros [ | n]; cbn;
    try apply List.NoDup_nil.
  apply List.NoDup_cons; [ | apply IH].
  intros Hin. apply Hx. eapply in_firstn, Hin.
Qed.

(** ** Claims about the Regressor *)

(** C4, as amended. The Regressor has no guard on the number of rows: the
    symbols it fits are exactly the symbols with at least one row left
    after [dropna], one with a single row included. Each is handed to the
    OLS fit on its remaining rows, and what the fit reports makes up the
    symbol's rows of the metrics table. *)
Theorem every_remaining_symbol_is_fitted coef rsq (df : list Row) (s : string) :
  (In s (List.map g_symbol (regression_metrics coef rsq df))
   <-> In s (List.map symbol (dropna df))) /\
  (In s (List.map symbol (dropna df)) ->
   rows_of_symbol (dropna df) s <> [] /\
   List.filter (fun r => String.eqb (g_symbol r) s) (regression_metrics coef rsq df)
   = stock_results coef rsq s (rows_of_symbol (dropna df) s)).
Proof.
  split; [apply fitted_symbols | ].
  intros H. split; [apply rows_of_symbol_not_nil, H | apply rows_of_fitted_symbol, H].
Qed.

(** C4, the claim as stated fails: AAA has one row in [one_day_symbol],
    fewer than two, and is among the fitted symbols all the same. *)
Lemma one_row_symbol_is_fitted :
  (length (rows_of_symbol (dropna one_day_symbol) "AAA") < 2)%nat /\
  In "AAA" (List.map g_symbol
              (regression_metrics sample_coef sample_rsquared_adj one_day_symbol)).
Proof.
  split; [vm_compute; lia | ].
  apply fitted_symbols. vm_compute. left. reflexivity.
Qed.

(** C10, as amended. A fitted symbol contributes one row per column of its
    design matrix: the rows [const] and [adj_open], or the row [adj_open]
    alone when the symbol's adj_open values are one and the same non-zero
    number, since [add_constant] then adds no intercept. All rows of a
    symbol carry the same score, the adjusted R-squared of its fit, and the
    [const]-filtered top-5 slice holds at most one row per symbol. *)
Theorem rows_per_fitted_symbol argsort coef rsq (df : list Row) (s : string) :
  In s (stock_symbols df) ->
  argsort_sorts argsort
    (List.map g_score (List.filter is_const_row (regression_metrics coef rsq df))) ->
  List.map variable
    (List.filter (fun r => String.eqb (g_symbol r) s) (regression_metrics coef rsq df))
  = (if is_constant_column (List.map adj_open (rows_of_symbol (dropna df) s))
     then ["adj_open"] else ["const"; "adj_open"]) /\
  Forall (fun r => g_score r = rsq (design (rows_of_symbol (dropna df) s))
                                   (response (rows_of_symbol (dropna df) s)))
         (List.filter (fun r => String.eqb (g_symbol r) s)
            (regression_metrics coef rsq df)) /\
  List.NoDup (List.map g_symbol
                (top_regression argsort (regression_metrics coef rsq df))).
Proof.
  intros Hs Hok. unfold stock_symbols in Hs. apply (proj1 (unique_In _ _)) in Hs.
  rewrite (rows_of_fitted_symbol coef rsq df s Hs).
  split; [rewrite stock_results_variables; apply design_columns | ].
  split.
  - eapply List.Forall_impl; [ | apply stock_results_rows].
    cbn. intros r [_ H]. exact H.
  - unfold top_regression, head5. rewrite <- firstn_map. apply NoDup_firstn.
    eapply Permutation_NoDup; [ | apply (const_symbols_NoDup coef rsq df)].
    apply Permutation_map. symmetry.
    apply sort_values_descending_perm, Hok.
Qed.

Lemma rows_per_fitted_symbol_witness :
  List.map variable
    (List.filter (fun r => String.eqb (g_symbol r) "BBB")
       (regression_metrics sample_coef sample_rsquared_adj sample_days))
  = (if is_constant_column
          (List.map adj_open (rows_of_symbol (dropna sample_days) "BBB"))
     then ["adj_open"] else ["const"; "adj_open"]) /\
  Forall (fun r => g_score r
                   = sample_rsquared_adj
                       (design (rows_of_symbol (dropna sample_days) "BBB"))
                       (response (rows_of_symbol (dropna sample_days) "BBB")))
         (List.filter (fun r => String.eqb (g_symbol r) "BBB")
            (regression_metrics sample_coef sample_rsquared_adj sample_days)) /\
  List.NoDup (List.map g_symbol
                (top_regression stable_argsort
                   (regression_metrics sample_coef sample_rsquared_adj sample_days))).
Proof.
  apply (rows_per_fitted_symbol stable_argsort sample_coef sample_rsquared_adj
           sample_days "BBB").
  - vm_compute. right. left. reflexivity.
  - vm_compute. reflexivity.
Defined.

(** C10, the claim as stated fails: AAA's single row in [one_day_symbol]
    has the adj_open value 100, a non-zero constant, so AAA contributes the
    one row [adj_open] and no [const] row. *)
Lemma one_row_symbol_has_no_const_row :
  List.map variable
    (List.filter (fun r => String.eqb (g_symbol r) "AAA")
       (regression_metrics sample_coef sample_rsquared_adj one_day_symbol))
  = ["adj_open"] /\
  length (List.filter (fun r => String.eqb (g_symbol r) "AAA")
            (regression_metrics sample_coef sample_rsquared_adj one_day_symbol))
  <> 2%nat.
Proof.
  split; [vm_compute; reflexivity | vm_compute; lia].
Qed.

(** * Further properties *)

(** ** The Fetcher, whatever the network does *)

Lemma fresh_not_allocated (h : gmap nat (list Row)) : h !! fresh (dom h) = None.
Proof. apply not_elem_of_dom. apply is_fresh. Qed.

(** X1. The Fetcher returns normally for every symbol list and every
    behaviour of the network: each transport error, bad status and
    undecodable body is caught. The frame it returns is a new object: the
    reference was free before, and every frame that was on the heap is
    still there unchanged. *)
Theorem fetch_always_returns (symbols : list string) (w : World) :
  exists data w',
    fetch_last_60_days_prices symbols w = (Returned data, w') /\
    heap w !! data = None /\
    is_Some (heap w' !! data) /\
    forall l df, heap w !! l = Some df -> heap w' !! l = Some df.
Proof.
  destruct (fetch_spec symbols w) as [lines Hf].
  eexists _, _. split; [exact Hf | ]. cbn [heap].
  split; [apply fresh_not_allocated | ].
  split; [rewrite lookup_insert_eq; eexists; reflexivity | ].
  intros l df Hl. rewrite lookup_insert_ne; [exact Hl | ].
  intros <-. rewrite fresh_not_allocated in Hl. discriminate Hl.
Qed.

Lemma combined_dataset_filter nt symbols :
  combined_dataset nt (List.filter (fun s => gives_data (nt s)) symbols)
  = combined_dataset nt symbols.
Proof.
  unfold combined_dataset, pd_concat.
  induction symbols as [ | s rest IH]; cbn; [reflexivity | ].
  destruct (gives_data (nt s)) eqn:E; cbn; rewrite IH; [reflexivity | ].
  unfold gives_data in E. destruct (delivered (nt s)); [reflexivity | discriminate E].
Qed.

Lemma existsb_filter_self {A} (f : A -> bool) l :
  existsb f (List.filter f l) = existsb f l.
Proof.
  induction l as [ | x l IH]; cbn; [reflexivity | ].
  destruct (f x) eqn:E; cbn; rewrite ?E; cbn; [reflexivity | exact IH].
Qed.

(** X2. A symbol whose request fails or brings no data is skipped without
    a trace in the result: fetching a symbol list gives the same table and
    the same files as fetching only those of its symbols that bring data. *)
Theorem failed_symbols_leave_no_trace (symbols : list string) (w : World) :
  exists data w1 data' w2,
    fetch_last_60_days_prices symbols w = (Returned data, w1) /\
    fetch_last_60_days_prices
      (List.filter (fun s => gives_data (net w s)) symbols) w
    = (Returned data', w2) /\
    heap w1 !! data = heap w2 !! data' /\
    files w1 = files w2.
Proof.
  destruct (fetch_spec symbols w) as [l1 H1].
  destruct (fetch_spec (List.filter (fun s => gives_data (net w s)) symbols) w)
    as [l2 H2].
  eexists _, _, _, _. split; [exact H1 | ]. split; [exact H2 | ].
  cbn [heap files]. rewrite !lookup_insert_eq.
  rewrite (existsb_filter_self (fun s => gives_data (net w s))).
  rewrite combined_dataset_filter. split; reflexivity.
Qed.

(** ** Percent change at the edges *)

Lemma hundred_eq : hundred = S754_finite false 7036874417766400 (-46).
Proof. vm_compute. reflexivity. Qed.

Lemma sub_self s m e :
  F64.sub (S754_finite s m e) (S754_finite s m e) = S754_zero false.
Proof. unfold F64.sub, SFsub. rewrite Z.sub_diag. reflexivity. Qed.

Lemma mul_hundred_not_finite x :
  F64.is_finite x = false -> F64.is_finite (F64.mul x hundred) = false.
Proof.
  rewrite hundred_eq. destruct x; intros H; try discriminate H; reflexivity.
Qed.

(** X3. The percent change of a row is computed without any guard on the
    divisor. A row whose adj_open is zero gets a percent change that is
    not finite (an infinity or NaN) and no exception; a missing adj_open
    or adj_close gives NaN; a row that closes where it opened, at a finite
    non-zero price, gets exactly zero. *)
Theorem percent_change_edges (r : Row) :
  (F64.is_zero (adj_open r) = true -> F64.is_finite (pct_change r) = false) /\
  (F64.is_nan (adj_open r) || F64.is_nan (adj_close r) = true ->
   F64.is_nan (pct_change r) = true) /\
  (finite_nonzero (adj_open r) = true -> adj_close r = adj_open r ->
   F64.is_zero (pct_change r) = true).
Proof.
  unfold pct_change. split; [ | split].
  - intros H. apply mul_hundred_not_finite, div_by_zero_not_finite, H.
  - intros H. rewrite hundred_eq.
    destruct (adj_open r), (adj_close r); try discriminate H; reflexivity.
  - intros H ->. rewrite hundred_eq.
    destruct (adj_open r) as [ | | | s m e]; try discriminate H.
    rewrite sub_self. reflexivity.
Qed.

(** ** The performance table *)

Lemma string_leb_total s1 s2 : string_leb s1 s2 = false -> string_leb s2 s1 = true.
Proof.
  unfold string_leb. rewrite (String.compare_antisym s2 s1).
  destruct (String.compare s1 s2); cbn; intros H; try discriminate H; reflexivity.
Qed.

Lemma performance_table_symbol_list df :
  List.map p_symbol (performance_table df)
  = insertion_sort string_leb (unique (List.map symbol df)).
Proof.
  unfold performance_table, groupby_symbol. rewrite !List.map_map.
  apply List.map_id.
Qed.

Lemma performance_table_rows df p :
  In p (performance_table df) ->
  In (p_symbol p) (List.map symbol df) /\
  p = performance_row (p_symbol p, rows_of_symbol df (p_symbol p)).
Proof.
  unfold performance_table, groupby_symbol. rewrite List.map_map.
  intros H. apply in_map_iff in H. destruct H as (s & <- & Hs).
  apply (Permutation_in _ (insertion_sort_perm string_leb _)) in Hs.
  apply (proj1 (unique_In _ _)) in Hs. split; [exact Hs | reflexivity].
Qed.

(** X4. The performance table has exactly one row for each symbol that
    occurs in the frame: its symbol column lists the frame's symbols
    without repetition and in ascending order, and each row aggregates all
    rows of its symbol, of which there is at least one. *)
Theorem one_performance_row_per_symbol (df : list Row) :
  List.NoDup (List.map p_symbol (performance_table df)) /\
  Sorted (fun s1 s2 => string_leb s1 s2 = true)
         (List.map p_symbol (performance_table df)) /\
  (forall s, In s (List.map p_symbol (performance_table df))
             <-> In s (List.map symbol df)) /\
  Forall (fun p => p = performance_row (p_symbol p, rows_of_symbol df (p_symbol p))
                   /\ rows_of_symbol df (p_symbol p) <> [])
         (performance_table df).
Proof.
  rewrite performance_table_symbol_list. split; [ | split; [ | split]].
  - eapply Permutation_NoDup; [ | apply (unique_NoDup (List.map symbol df))].
    symmetry. apply insertion_sort_perm.
  - apply insertion_sort_Sorted, string_leb_total.
  - intros s. rewrite <- (unique_In (List.map symbol df) s). split; intros H.
    + eapply Permutation_in; [apply insertion_sort_perm | exact H].
    + eapply Permutation_in; [symmetry; apply insertion_sort_perm | exact H].
  - apply List.Forall_forall. intros p Hp.
    apply performance_table_rows in Hp. destruct Hp as [Hs Hp].
    split; [exact Hp | apply rows_of_symbol_not_nil, Hs].
Qed.

Lemma std_of_at_most_one col : (length col <= 1)%nat -> std col = F64.nan.
Proof.
  intros H. unfold std.
  destruct col as [ | x [ | y col]]; cbn in H; [reflexivity | | lia].
  cbn. destruct (not_nan x); reflexivity.
Qed.

(** X5. A symbol with a single row in the frame has no spread to measure:
    its volatility is NaN and so is its score. *)
Theorem single_row_symbol_scores_nan (df : list Row) (p : PerfRow) :
  In p (performance_table df) ->
  (length (rows_of_symbol df (p_symbol p)) <= 1)%nat ->
  F64.is_nan (volatility p) = true /\ F64.is_nan (score p) = true.
Proof.
  intros Hp Hlen. apply performance_table_rows in Hp. destruct Hp as [_ Hp].
  rewrite Hp. cbn [volatility score performance_row snd].
  rewrite std_of_at_most_one
    by (unfold percent_changes; rewrite length_map; exact Hlen).
  split; [reflexivity | apply div_by_nan; reflexivity].
Qed.

Lemma single_row_symbol_scores_nan_witness :
  F64.is_nan (volatility
                (performance_row
                   ("AAA", rows_of_symbol (analyzed_frame one_day_symbol) "AAA")))
  = true /\
  F64.is_nan (score
                (performance_row
                   ("AAA", rows_of_symbol (analyzed_frame one_day_symbol) "AAA")))
  = true.
Proof.
  apply (single_row_symbol_scores_nan (analyzed_frame one_day_symbol)).
  - vm_compute. left. reflexivity.
  - vm_compute. lia.
Defined.

(** ** More on the rankings *)





Lemma unique_length_same_members l1 l2 :
  (forall x, In x l1 <-> In x l2) -> length (unique l1) = length (unique l2).
Proof.
  intros H. apply Permutation_length.
  apply Permutation.NoDup_Permutation; [apply unique_NoDup | apply unique_NoDup | ].
  intros x. rewrite !unique_In. apply H.
Qed.

Lemma analyzed_frame_symbols df :
  Permutation (List.map symbol (analyzed_frame df)) (List.map symbol df).
Proof.
  pose proof (Permutation_map r_symbol (analyzed_frame_records df)) as H.
  rewrite !List.map_map in H. exact H.
Qed.

Lemma performance_table_length df :
  length (performance_table df) = length (unique (List.map symbol df)).
Proof.
  rewrite <- (length_map p_symbol), performance_table_symbol_list.
  apply Permutation_length, insertion_sort_perm.
Qed.

(** X7. On a non-empty table, when [argsort] keeps its promise, the
    performance table has as many rows as the input has distinct symbols,
    and the top-5 table has five rows or, with fewer than five symbols,
    one row per symbol. *)
Theorem top5_size argsort (w : World) (d : nat) (df : list Row) :
  heap w !! d = Some df -> empty df = false ->
  argsort_sorts argsort (List.map score (performance_table (analyzed_frame df))) ->
  exists performance top_5_stocks w',
    analyze_and_recommend argsort d w = (Returned (performance, top_5_stocks), w') /\
    length performance = length (unique (List.map symbol df)) /\
    length top_5_stocks = Nat.min 5 (length performance).
Proof.
  intros H Hne Hok. eexists _, _, _.
  split; [apply analyze_nonempty; eassumption | ]. split.
  - rewrite performance_table_length. apply unique_length_same_members.
    intros x. split; apply Permutation_in;
      [ | symmetry]; apply analyzed_frame_symbols.
  - unfold head5. rewrite length_firstn.
    rewrite (Permutation_length (sort_values_descending_perm argsort score _ Hok)).
    reflexivity.
Qed.

Lemma top5_size_witness :
  exists performance top_5_stocks w',
    analyze_and_recommend stable_argsort O (world_with sample_days)
    = (Returned (performance, top_5_stocks), w') /\
    length performance = length (unique (List.map symbol sample_days)) /\
    length top_5_stocks = Nat.min 5 (length performance).
Proof.
  apply (top5_size stable_argsort (world_with sample_days) O sample_days).
  - reflexivity.
  - reflexivity.
  - vm_compute. reflexivity.
Defined.

(** ** Running the Recommender again *)

Lemma insertion_sort_sorted_id {A} (leb : A -> A -> bool) l :
  Sorted (fun a b => leb a b = true) l -> insertion_sort leb l = l.
Proof.
  induction 1 as [ | x l Hs IH Hd]; cbn; [reflexivity | ].
  rewrite IH. destruct Hd as [ | y l Hxy]; cbn; [reflexivity | ].
  rewrite Hxy. reflexivity.
Qed.

Lemma to_datetime_fixed l :
  Forall (fun r => date r = Timestamp (instant_of (date r))) l ->
  to_datetime l = l.
Proof.
  unfold to_datetime. induction 1 as [ | r l Hr _ IH]; cbn; [reflexivity | ].
  rewrite IH. f_equal. destruct r. cbn in *. rewrite <- Hr. reflexivity.
Qed.

Lemma add_percent_change_twice l :
  add_percent_change (add_percent_change l) = add_percent_change l.
Proof. unfold add_percent_change. rewrite List.map_map. reflexivity. Qed.

Lemma analyzed_frame_idempotent df :
  analyzed_frame (analyzed_frame df) = analyzed_frame df.
Proof.
  unfold analyzed_frame at 1.
  rewrite to_datetime_fixed.
  - unfold sort_by_symbol_date.
    rewrite (insertion_sort_sorted_id _ _ (analyzed_frame_sorted df)).
    unfold analyzed_frame. apply add_percent_change_twice.
  - apply List.Forall_forall. intros r Hr. apply analyzed_frame_rows in Hr.
    apply Hr.
Qed.

Lemma analyzed_frame_not_empty df : empty df = false -> empty (analyzed_frame df) = false.
Proof.
  intros H. pose proof (Permutation_length (analyzed_frame_records df)) as Hl.
  rewrite !length_map in Hl.
  destruct df; [discriminate H | ]. destruct (analyzed_frame (r :: df));
    [discriminate Hl | reflexivity].
Qed.

(** X8. The Recommender's rewrite of its input is idempotent: a second
    call on the same frame object returns the same two tables as the
    first, and leaves the frame and every file as the first call left
    them. *)
Theorem analyze_twice argsort (w : World) (d : nat) (df : list Row) :
  heap w !! d = Some df -> empty df = false ->
  exists tables w1 w2,
    analyze_and_recommend argsort d w = (Returned tables, w1) /\
    analyze_and_recommend argsort d w1 = (Returned tables, w2) /\
    heap w2 = heap w1 /\ files w2 = files w1.
Proof.
  intros H Hne. eexists _, _, _.
  split; [apply analyze_nonempty; eassumption | ].
  split.
  - rewrite (analyze_nonempty argsort _ d (analyzed_frame df));
      [ | cbn [heap]; apply lookup_insert_eq | apply analyzed_frame_not_empty, Hne].
    rewrite analyzed_frame_idempotent. reflexivity.
  - cbn [heap files]. rewrite !insert_insert_eq. split; reflexivity.
Qed.

Lemma analyze_twice_witness :
  exists tables w1 w2,
    analyze_and_recommend stable_argsort O (world_with sample_days)
    = (Returned tables, w1) /\
    analyze_and_recommend stable_argsort O w1 = (Returned tables, w2) /\
    heap w2 = heap w1 /\ files w2 = files w1.
Proof.
  apply (analyze_twice stable_argsort (world_with sample_days) O sample_days).
  - reflexivity.
  - reflexivity.
Defined.

(** ** More on the Regressor *)



Lemma analyzed_frame_origin df r :
  In r (analyzed_frame df) ->
  exists r0, In r0 df /\ symbol r = symbol r0 /\ pct_change r = pct_change r0.
Proof.
  unfold analyzed_frame, add_percent_change, sort_by_symbol_date, to_datetime.
  intros H. apply in_map_iff in H. destruct H as (r1 & <- & H1).
  apply (Permutation_in _ (insertion_sort_perm symbol_date_leb _)) in H1.
  apply in_map_iff in H1. destruct H1 as (r0 & <- & H0).
  exists r0. split; [exact H0 | split; reflexivity].
Qed.

(** X10. The Regressor's [dropna] also looks at the percent_change column
    the Recommender has added. A symbol whose rows all have a NaN percent
    change (as with adj_open and adj_close both zero) is therefore fitted
    when the Regressor runs on the table as fetched, provided one of its
    rows is complete, and is absent from the metrics once the Recommender
    has run on the table, as in the script. *)
Theorem nan_percent_change_rows_are_dropped coef rsq (df : list Row) (s : string)
        (r : Row) :
  Forall (fun r => symbol r = s -> F64.is_nan (pct_change r) = true) df ->
  In r df -> symbol r = s -> complete r = true ->
  In s (List.map g_symbol (regression_metrics coef rsq df)) /\
  ~ In s (List.map g_symbol (regression_metrics coef rsq (analyzed_frame df))).
Proof.
  intros Hnan Hr Hs Hc. split.
  - apply fitted_symbols. apply in_map_iff. exists r. split; [exact Hs | ].
    apply filter_In. auto.
  - intros Hin. apply fitted_symbols in Hin. apply in_map_iff in Hin.
    destruct Hin as (r' & Hs' & Hr'). apply filter_In in Hr'.
    destruct Hr' as [Hr' Hc'].
    destruct (analyzed_frame_rows _ _ Hr') as [_ Hpc].
    destruct (analyzed_frame_origin _ _ Hr') as (r0 & Hr0 & Hsym & Hpct).
    rewrite List.Forall_forall in Hnan.
    assert (Hn : F64.is_nan (pct_change r') = true).
    { rewrite Hpct. apply (Hnan r0 Hr0). congruence. }
    unfold complete in Hc'. rewrite Hpc in Hc'. unfold not_nan at 6 in Hc'.
    rewrite Hn in Hc'. rewrite andb_false_r in Hc'. discriminate Hc'.
Qed.

Lemma nan_percent_change_rows_are_dropped_witness :
  In "ZZZ" (List.map g_symbol
              (regression_metrics sample_coef sample_rsquared_adj zero_priced_days)) /\
  ~ In "ZZZ" (List.map g_symbol
                (regression_metrics sample_coef sample_rsquared_adj
                   (analyzed_frame zero_priced_days))).
Proof.
  apply (nan_percent_change_rows_are_dropped sample_coef sample_rsquared_adj
           zero_priced_days "ZZZ"
           (row_of_record (day "ZZZ" 1 F64.zero F64.zero))).
  - repeat constructor; cbn; intros H; try reflexivity; discriminate H.
  - left. reflexivity.
  - reflexivity.
  - reflexivity.
Defined.

Lemma one_row_constant_column (x : float) :
  finite_nonzero x = true -> is_constant_column [x] = true.
Proof.
  unfold finite_nonzero, is_constant_column. cbn [np_max np_min fold_left existsb].
  destruct x as [ | | | s m e]; intros H; try discriminate H.
  rewrite sub_self. destruct s; reflexivity.
Qed.

Lemma const_row_has_moving_open coef rsq df r :
  In r (regression_metrics coef rsq df) -> variable r = "const" ->
  is_constant_column
    (List.map adj_open (rows_of_symbol (dropna df) (g_symbol r))) = false.
Proof.
  intros Hr Hv. rewrite regression_metrics_flat_map in Hr.
  apply in_flat_map in Hr. destruct Hr as (s & _ & Hr).
  pose proof (stock_results_rows coef rsq s (rows_of_symbol (dropna df) s)) as Hrows.
  rewrite List.Forall_forall in Hrows. destruct (Hrows r Hr) as [Hs _].
  rewrite Hs.
  assert (Hin : In (variable r)
                   (List.map variable
                      (stock_results coef rsq s (rows_of_symbol (dropna df) s))))
    by (apply in_map, Hr).
  rewrite stock_results_variables, design_columns, Hv in Hin.
  destruct (is_constant_column _); [ | reflexivity].
  destruct Hin as [Hin | []]. discriminate Hin.
Qed.

(** X11. A symbol whose remaining adj_open values are one and the same
    non-zero number has no [const] row and so never enters the
    regression top-5, whatever its fit and whatever order [argsort]
    gives. A symbol with a single remaining row at a finite non-zero
    adj_open is such a symbol. *)
Theorem constant_open_never_in_top argsort coef rsq (df : list Row) (s : string) :
  is_constant_column (List.map adj_open (rows_of_symbol (dropna df) s)) = true ->
  ~ In s (List.map g_symbol
            (top_regression argsort (regression_metrics coef rsq df))).
Proof.
  intros Hc Hin. apply in_map_iff in Hin. destruct Hin as (r & <- & Hr).
  apply top_const_rows in Hr. destruct Hr as [Hr Hv].
  rewrite (const_row_has_moving_open coef rsq df r Hr Hv) in Hc. discriminate Hc.
Qed.

Lemma constant_open_never_in_top_witness :
  ~ In "AAA" (List.map g_symbol
                (top_regression stable_argsort
                   (regression_metrics sample_coef sample_rsquared_adj
                      one_day_symbol))).
Proof.
  apply (constant_open_never_in_top stable_argsort sample_coef sample_rsquared_adj
           one_day_symbol "AAA").
  apply (one_row_constant_column (F64.of_Z 100)). reflexivity.
Defined.

(** ** The script from end to end *)

Lemma to_datetime_twice l : to_datetime (to_datetime l) = to_datetime l.
Proof. unfold to_datetime. rewrite List.map_map. reflexivity. Qed.

Lemma analyzed_frame_to_datetime l :
  analyzed_frame (to_datetime l) = analyzed_frame l.
Proof. unfold analyzed_frame. rewrite to_datetime_twice. reflexivity. Qed.

(** X12. When some symbol brings data, and a complete row is left for
    the Regressor, the script runs to its end without an exception. It
    leaves four files and no other: the raw table as fetched, the
    Recommender's top-5, the regression metrics and the regression top-5.
    Both analyses work on the fetched table as the Recommender has
    rewritten it, and that is the frame the global [data] refers to at
    the end. *)
Theorem script_with_data argsort coef rsq (symbols : list string) (w : World) :
  existsb (fun s => gives_data (net w s)) symbols = true ->
  dropna (analyzed_frame (combined_dataset (net w) symbols)) <> [] ->
  exists data performance top_5_stocks stock_metrics top_stocks w',
    script argsort coef rsq symbols w
    = (Returned (data, (performance, top_5_stocks), (stock_metrics, top_stocks)), w') /\
    heap w' !! data = Some (analyzed_frame (combined_dataset (net w) symbols)) /\
    performance = performance_table (analyzed_frame (combined_dataset (net w) symbols)) /\
    stock_metrics
    = regression_metrics coef rsq (analyzed_frame (combined_dataset (net w) symbols)) /\
    files w'
    = <[top_regression_csv := CsvRegression top_stocks]>
        (<[metrics_csv := CsvRegression stock_metrics]>
           (<[top5_csv := CsvPerformance top_5_stocks]>
              (<[raw_csv := CsvPrices (combined_dataset (net w) symbols)]> (files w)))).
Proof.
  intros Hany _. pose proof (combined_dataset_with_data _ _ Hany) as Hne.
  assert (Hne' : empty (to_datetime (combined_dataset (net w) symbols)) = false).
  { destruct (combined_dataset (net w) symbols); [discriminate Hne | reflexivity]. }
  destruct (fetch_spec symbols w) as [lines Hf]. rewrite Hany in Hf.
  unfold script. unfold bind at 1. rewrite Hf.
  unfold bind at 1. unfold read_frame at 1. cbn [heap]. rewrite lookup_insert_eq.
  rewrite Hne.
  unfold bind at 1. unfold update_frame at 1. cbn [heap]. rewrite lookup_insert_eq.
  unfold set_heap. cbn [net files stdout heap]. rewrite insert_insert_eq.
  unfold bind at 1.
  rewrite (analyze_nonempty argsort _ _ _ (lookup_insert_eq _ _ _) Hne').
  cbn [heap]. rewrite insert_insert_eq.
  unfold bind at 1.
  rewrite (perform_regression_spec argsort coef rsq _ _ _ (lookup_insert_eq _ _ _)).
  rewrite analyzed_frame_to_datetime.
  eexists _, _, _, _, _, _. split; [reflexivity | ]. cbn [heap files].
  split; [apply lookup_insert_eq | ]. auto.
Qed.

Lemma script_with_data_witness :
  exists data performance top_5_stocks stock_metrics top_stocks w',
    script stable_argsort sample_coef sample_rsquared_adj
      ["AAA"; "CCC"; "BBB"; "DDD"] live_world
    = (Returned (data, (performance, top_5_stocks), (stock_metrics, top_stocks)), w') /\
    heap w' !! data
    = Some (analyzed_frame
              (combined_dataset (net live_world) ["AAA"; "CCC"; "BBB"; "DDD"])) /\
    performance
    = performance_table
        (analyzed_frame
           (combined_dataset (net live_world) ["AAA"; "CCC"; "BBB"; "DDD"])) /\
    stock_metrics
    = regression_metrics sample_coef sample_rsquared_adj
        (analyzed_frame
           (combined_dataset (net live_world) ["AAA"; "CCC"; "BBB"; "DDD"])) /\
    files w'
    = <[top_regression_csv := CsvRegression top_stocks]>
        (<[metrics_csv := CsvRegression stock_metrics]>
           (<[top5_csv := CsvPerformance top_5_stocks]>
              (<[raw_csv := CsvPrices
                              (combined_dataset (net live_world)
                                 ["AAA"; "CCC"; "BBB"; "DDD"])]>
                 (files live_world)))).
Proof.
  apply (script_with_data stable_argsort sample_coef sample_rsquared_adj
           ["AAA"; "CCC"; "BBB"; "DDD"] live_world).
  - reflexivity.
  - vm_compute. discriminate.
Defined.

(** ** What the dashboard is given *)

Lemma ascii_compare_lt_trans a b c :
  Ascii.compare a b = Lt -> Ascii.compare b c = Lt -> Ascii.compare a c = Lt.
Proof.
  unfold Ascii.compare. rewrite !N.compare_lt_iff. apply N.lt_trans.
Qed.

Lemma ascii_compare_refl a : Ascii.compare a a = Eq.
Proof. apply N.compare_refl. Qed.

Lemma string_compare_refl s : String.compare s s = Eq.
Proof.
  induction s as [ | a s IH]; cbn; [reflexivity | ].
  rewrite ascii_compare_refl. exact IH.
Qed.

Lemma string_compare_lt_trans s1 : forall s2 s3,
  String.compare s1 s2 = Lt -> String.compare s2 s3 = Lt ->
  String.compare s1 s3 = Lt.
Proof.
  induction s1 as [ | a s1 IH]; intros [ | b s2] [ | c s3]; cbn;
    try discriminate; try reflexivity.
  destruct (Ascii.compare a b) eqn:Hab; try discriminate;
    destruct (Ascii.compare b c) eqn:Hbc; try discriminate.
  - apply Ascii.compare_eq_iff in Hab, Hbc. subst.
    rewrite ascii_compare_refl. apply IH.
  - apply Ascii.compare_eq_iff in Hab. subst. rewrite Hbc. reflexivity.
  - apply Ascii.compare_eq_iff in Hbc. subst. rewrite Hab. reflexivity.
  - rewrite (ascii_compare_lt_trans _ _ _ Hab Hbc). reflexivity.
Qed.

Lemma symbol_date_leb_trans r1 r2 r3 :
  symbol_date_leb r1 r2 = true -> symbol_date_leb r2 r3 = true ->
  symbol_date_leb r1 r3 = true.
Proof.
  unfold symbol_date_leb.
  destruct (String.compare (symbol r1) (symbol r2)) eqn:H12; try discriminate;
    destruct (String.compare (symbol r2) (symbol r3)) eqn:H23; try discriminate;
    intros Ha Hb.
  - apply String.compare_eq_iff in H12, H23. rewrite H12, H23.
    rewrite string_compare_refl. apply Z.leb_le. apply Z.leb_le in Ha, Hb. lia.
  - apply String.compare_eq_iff in H12. rewrite H12, H23. reflexivity.
  - apply String.compare_eq_iff in H23. rewrite <- H23, H12. reflexivity.
  - rewrite (string_compare_lt_trans _ _ _ H12 H23). reflexivity.
Qed.

Lemma StronglySorted_filter {A} (R : A -> A -> Prop) (f : A -> bool) l :
  StronglySorted R l -> StronglySorted R (List.filter f l).
Proof.
  induction 1 as [ | x l Hs IH Hx]; cbn; [constructor | ].
  destruct (f x); [ | exact IH]. constructor; [exact IH | ].
  rewrite List.Forall_forall in Hx |- *. intros y Hy.
  apply filter_In in Hy. apply Hx, Hy.
Qed.

Lemma Permutation_filter {A} (f : A -> bool) l l' :
  Permutation l l' -> Permutation (List.filter f l) (List.filter f l').
Proof.
  induction 1 as [ | x l l' _ IH | x y l | l l' l'' _ IH1 _ IH2]; cbn.
  - constructor.
  - destruct (f x); [constructor | ]; exact IH.
  - destruct (f x), (f y); try reflexivity. apply perm_swap.
  - etransitivity; eassumption.
Qed.

Lemma records_of_symbol_rows l s :
  List.map record_of_row (rows_of_symbol l s)
  = List.filter (fun rec => String.eqb (r_symbol rec) s) (List.map record_of_row l).
Proof.
  unfold rows_of_symbol. induction l as [ | r l IH]; cbn; [reflexivity | ].
  destruct (String.eqb (symbol r) s); cbn; rewrite IH; reflexivity.
Qed.

(** X13. After the Recommender has run on a non-empty table, the rows
    the dashboard callback draws for a selected symbol are the records of
    that symbol, all of them and no other, in non-decreasing date order;
    the callback itself changes nothing. *)
Theorem dashboard_rows_in_date_order argsort (w : World) (d : nat) (df : list Row)
        (selected_symbol : string) :
  heap w !! d = Some df -> empty df = false ->
  exists tables w' rows,
    analyze_and_recommend argsort d w = (Returned tables, w') /\
    update_dashboard d selected_symbol w' = (Returned rows, w') /\
    Forall (fun r => symbol r = selected_symbol) rows /\
    StronglySorted
      (fun r1 r2 => (instant_of (date r1) <= instant_of (date r2))%Z) rows /\
    Permutation (List.map record_of_row rows)
                (List.map record_of_row (rows_of_symbol df selected_symbol)).
Proof.
  intros H Hne. eexists _, _, (rows_of_symbol (analyzed_frame df) selected_symbol).
  split; [apply analyze_nonempty; eassumption | ].
  split; [ | split; [ | split]].
  - unfold update_dashboard, bind, read_frame. cbn [heap].
    rewrite lookup_insert_eq. reflexivity.
  - apply List.Forall_forall. intros r Hr. apply filter_In in Hr.
    apply String.eqb_eq, Hr.
  - assert (Hss : StronglySorted (fun r1 r2 => symbol_date_leb r1 r2 = true)
                    (rows_of_symbol (analyzed_frame df) selected_symbol)).
    { apply StronglySorted_filter.
      apply Stdlib.Sorting.Sorted.Sorted_StronglySorted;
        [ | apply analyzed_frame_sorted].
      intros x y z. apply symbol_date_leb_trans. }
    eapply StronglySorted_weaken;
      [exact Hss
      | apply List.Forall_forall; intros r Hr; apply filter_In in Hr;
        exact (proj2 Hr)
      | ].
    cbn beta. intros a b Ha Hb Hab. apply String.eqb_eq in Ha, Hb.
    unfold symbol_date_leb in Hab. rewrite Ha, Hb, string_compare_refl in Hab.
    apply Z.leb_le, Hab.
  - rewrite !records_of_symbol_rows. apply Permutation_filter.
    apply analyzed_frame_records.
Qed.

Lemma dashboard_rows_in_date_order_witness :
  exists tables w' rows,
    analyze_and_recommend stable_argsort O (world_with sample_days)
    = (Returned tables, w') /\
    update_dashboard O "BBB" w' = (Returned rows, w') /\
    Forall (fun r => symbol r = "BBB") rows /\
    StronglySorted
      (fun r1 r2 => (instant_of (date r1) <= instant_of (date r2))%Z) rows /\
    Permutation (List.map record_of_row rows)
                (List.map record_of_row (rows_of_symbol sample_days "BBB")).
Proof.
  apply (dashboard_rows_in_date_order stable_argsort (world_with sample_days) O
           sample_days "BBB").
  - reflexivity.
  - reflexivity.
Defined.


